(** * Verification model of [server/app.py]

    The Flask service has two routes: [GET /health] and [POST /send-report].
    This development embeds the handler code as Rocq functions and proves the
    properties of the written specification against that embedding.

    Conventions of the embedding:
    - a Python [str] is the list of its Unicode code points ([pystr]); the
      literals of the source are ASCII and are written [py "..."];
    - a Python [bytes] object is a list of numbers below 256 ([pybytes]);
    - the value returned by [request.get_json()] is a [json] tree whose
      objects are finite maps (Python [dict]s); the order of the keys is
      not recorded, so the text [f"{v}"] of a field that is itself an
      object is fixed only up to that order (the conversion of values
      other than strings is the parameter [str_of_value]);
    - effects (the clock, standard output, the mail capability, exceptions)
      are threaded through the monad [M] over a [world];
    - standard output is a UTF-8 text stream with the strict error handler
      (Python's default): [print] raises on a line it cannot encode. *)

From Stdlib Require Import NArith ZArith String Ascii List Floats Lia DecimalString.
From stdpp Require Import base option list strings gmap.

Set Warnings "-register-all".

Local Open Scope N_scope.

(** ** Python strings and bytes *)

Definition codepoint := N.
Abbreviation pystr := (list N).
Abbreviation pybytes := (list N).

(** An ASCII literal of the source as a Python string. *)
Definition py (s : string) : pystr := map N_of_ascii (list_ascii_of_string s).

Definition is_codepoint (c : codepoint) : bool := c <? 0x110000.

Definition is_surrogate (c : codepoint) : bool := (0xD800 <=? c) && (c <=? 0xDFFF).

(** Code points that have a UTF-8 encoding: the Unicode scalar values. *)
Definition is_scalar (c : codepoint) : bool := is_codepoint c && negb (is_surrogate c).

(** Decimal rendering of a number, as ["%d"] does. *)
Definition dec (n : N) : pystr := py (NilZero.string_of_uint (N.to_uint n)).

(** [str.zfill]: left padding with ['0'] up to [width] characters. *)
Definition zfill (width : nat) (s : pystr) : pystr :=
  repeat 48 (width - length s)%nat ++ s.

Definition hex_digit (d : N) : codepoint :=
  if d <? 10 then 48 + d else 97 + (d - 10).

(** ["%04x"] on a value below 65536. *)
Definition hex4 (c : N) : pystr :=
  [hex_digit (N.land (N.shiftr c 12) 15); hex_digit (N.land (N.shiftr c 8) 15);
   hex_digit (N.land (N.shiftr c 4) 15); hex_digit (N.land c 15)].

(** ** Exceptions *)

(** A raised Python exception: its class and the text [str(e)] returns. *)
Record exn := Exn { exc_class : string; exc_message : pystr }.

Inductive outcome (A : Type) : Type :=
| Returned (a : A)
| Raised (e : exn).
Arguments Returned {A} a.
Arguments Raised {A} e.

(** ** [str.encode('utf-8')] *)

(** The bytes of one code point. Every byte is stored into a [char]; only
    for the first byte of the four-byte form does that matter, and only
    above U+10FFFF, where no Python string has a character. *)
Definition utf8_encode_char (c : codepoint) : pybytes :=
  if c <? 0x80 then [c]
  else if c <? 0x800 then
    [N.lor 0xC0 (N.shiftr c 6); N.lor 0x80 (N.land c 0x3F)]
  else if c <? 0x10000 then
    [N.lor 0xE0 (N.shiftr c 12); N.lor 0x80 (N.land (N.shiftr c 6) 0x3F);
     N.lor 0x80 (N.land c 0x3F)]
  else
    [N.lor 0xF0 (N.shiftr c 18) mod 256; N.lor 0x80 (N.land (N.shiftr c 12) 0x3F);
     N.lor 0x80 (N.land (N.shiftr c 6) 0x3F); N.lor 0x80 (N.land c 0x3F)].

(** Number of surrogates at the front of a string: the strict error handler
    reports the whole run of unencodable characters. *)
Fixpoint surrogate_run (s : pystr) : nat :=
  match s with
  | c :: r => if is_surrogate c then S (surrogate_run r) else O
  | [] => O
  end.

(** [str(e)] of the [UnicodeEncodeError] for the surrogates at positions
    [start .. start + run - 1], the first of which is [c]. *)
Definition unicode_encode_error (start : nat) (run : nat) (c : codepoint) : exn :=
  Exn "UnicodeEncodeError"
    (match run with
     | 1%nat =>
         py "'utf-8' codec can't encode character '\u" ++ hex4 c ++
         py "' in position " ++ dec (N.of_nat start) ++ py ": surrogates not allowed"
     | _ =>
         py "'utf-8' codec can't encode characters in position " ++
         dec (N.of_nat start) ++ py "-" ++ dec (N.of_nat (start + run - 1)) ++
         py ": surrogates not allowed"
     end).

Fixpoint utf8_encode_from (pos : nat) (s : pystr) : outcome pybytes :=
  match s with
  | [] => Returned []
  | c :: r =>
      if is_surrogate c then Raised (unicode_encode_error pos (surrogate_run s) c)
      else match utf8_encode_from (S pos) r with
           | Returned bs => Returned (utf8_encode_char c ++ bs)
           | Raised e => Raised e
           end
  end.

Definition utf8_encode (s : pystr) : outcome pybytes := utf8_encode_from 0 s.

(** The strings the strict encoder accepts: those without a surrogate. *)
Definition printable (s : pystr) : Prop := Forall (fun c => is_surrogate c = false) s.

(** Writing a string to standard output, a UTF-8 text stream: the string
    is encoded first, and nothing is written when that raises. *)
Definition stdout_write (s : pystr) : outcome unit :=
  match utf8_encode s with
  | Returned _ => Returned tt
  | Raised e => Raised e
  end.

(** A run of [print] calls, one line each: the lines written, and the
    exception of the first line that cannot be encoded, if there is one. *)
Fixpoint print_lines (lines : list pystr) : outcome unit * list pystr :=
  match lines with
  | [] => (Returned tt, [])
  | line :: rest =>
      match stdout_write line with
      | Returned _ => let (r, written) := print_lines rest in (r, line :: written)
      | Raised e => (Raised e, [])
      end
  end.

(** ** [bytes.decode('utf-8')] *)

Definition is_continuation (b : N) : bool := (0x80 <=? b) && (b <=? 0xBF).

Fixpoint utf8_decode (bs : pybytes) : option pystr :=
  match bs with
  | [] => Some []
  | b0 :: r0 =>
      if b0 <? 0x80 then cons b0 <$> utf8_decode r0
      else if (0xC2 <=? b0) && (b0 <=? 0xDF) then
        match r0 with
        | b1 :: r1 =>
            if is_continuation b1
            then cons (N.lor (N.shiftl (N.land b0 0x1F) 6) (N.land b1 0x3F))
                   <$> utf8_decode r1
            else None
        | _ => None
        end
      else if (0xE0 <=? b0) && (b0 <=? 0xEF) then
        match r0 with
        | b1 :: b2 :: r2 =>
            let c := N.lor (N.shiftl (N.land b0 0x0F) 12)
                       (N.lor (N.shiftl (N.land b1 0x3F) 6) (N.land b2 0x3F)) in
            if is_continuation b1 && is_continuation b2 && (0x800 <=? c)
               && negb (is_surrogate c)
            then cons c <$> utf8_decode r2
            else None
        | _ => None
        end
      else if (0xF0 <=? b0) && (b0 <=? 0xF4) then
        match r0 with
        | b1 :: b2 :: b3 :: r3 =>
            let c := N.lor (N.shiftl (N.land b0 0x07) 18)
                       (N.lor (N.shiftl (N.land b1 0x3F) 12)
                          (N.lor (N.shiftl (N.land b2 0x3F) 6) (N.land b3 0x3F))) in
            if is_continuation b1 && is_continuation b2 && is_continuation b3
               && (0x10000 <=? c) && is_codepoint c
            then cons c <$> utf8_decode r3
            else None
        | _ => None
        end
      else None
  end.

(** [bytes.decode('utf-8')]; the error text is the general form of the
    codec's message, without the offending byte and its position. *)
Definition bytes_decode_utf8 (bs : pybytes) : outcome pystr :=
  match utf8_decode bs with
  | Some s => Returned s
  | None => Raised (Exn "UnicodeDecodeError" (py "'utf-8' codec can't decode bytes"))
  end.

(** ** [base64.b64encode] *)

Definition b64_alphabet : pystr :=
  py "ABCDEFGHIJKLMNOPQRSTUVWXYZabcdefghijklmnopqrstuvwxyz0123456789+/".

Definition b64_char (i : N) : N := nth (N.to_nat i) b64_alphabet 0.

(** The padding character ['=']. *)
Definition b64_pad : N := 61.

(** The four sextets of a group of three bytes. *)
Definition sextet0 (b0 : N) : N := N.shiftr b0 2.
Definition sextet1 (b0 b1 : N) : N := N.lor (N.shiftl (N.land b0 3) 4) (N.shiftr b1 4).
Definition sextet2 (b1 b2 : N) : N := N.lor (N.shiftl (N.land b1 15) 2) (N.shiftr b2 6).
Definition sextet3 (b2 : N) : N := N.land b2 63.

(** The last sextet of a final group of one byte, and of two bytes: the
    missing bits are zero. *)
Definition sextet1_last (b0 : N) : N := N.shiftl (N.land b0 3) 4.
Definition sextet2_last (b1 : N) : N := N.shiftl (N.land b1 15) 2.

Fixpoint b64encode (bs : pybytes) : pybytes :=
  match bs with
  | [] => []
  | [b0] =>
      [b64_char (sextet0 b0); b64_char (sextet1_last b0); b64_pad; b64_pad]
  | [b0; b1] =>
      [b64_char (sextet0 b0); b64_char (sextet1 b0 b1);
       b64_char (sextet2_last b1); b64_pad]
  | b0 :: b1 :: b2 :: rest =>
      b64_char (sextet0 b0) :: b64_char (sextet1 b0 b1)
      :: b64_char (sextet2 b1 b2) :: b64_char (sextet3 b2)
      :: b64encode rest
  end.

(** Base64 decoding as RFC 4648 defines it (the specification's
    "base64-decoded"): quanta of four alphabet characters, padding only in
    the last quantum. *)
Definition b64_index (c : N) : option N :=
  if (65 <=? c) && (c <=? 90) then Some (c - 65)
  else if (97 <=? c) && (c <=? 122) then Some (c - 97 + 26)
  else if (48 <=? c) && (c <=? 57) then Some (c - 48 + 52)
  else if c =? 43 then Some 62
  else if c =? 47 then Some 63
  else None.

(** The three bytes carried by four sextets. *)
Definition octet0 (i0 i1 : N) : N := N.lor (N.shiftl i0 2) (N.shiftr i1 4).
Definition octet1 (i1 i2 : N) : N := N.lor (N.shiftl (N.land i1 15) 4) (N.shiftr i2 2).
Definition octet2 (i2 i3 : N) : N := N.lor (N.shiftl (N.land i2 3) 6) i3.

Fixpoint b64decode (cs : pystr) : option pybytes :=
  match cs with
  | [] => Some []
  | c0 :: c1 :: c2 :: c3 :: rest =>
      match b64_index c0, b64_index c1 with
      | Some i0, Some i1 =>
          if c2 =? b64_pad then
            match rest with
            | [] => if c3 =? b64_pad then Some [octet0 i0 i1] else None
            | _ => None
            end
          else
            match b64_index c2 with
            | Some i2 =>
                if c3 =? b64_pad then
                  match rest with
                  | [] => Some [octet0 i0 i1; octet1 i1 i2]
                  | _ => None
                  end
                else
                  match b64_index c3 with
                  | Some i3 =>
                      (fun tl => octet0 i0 i1 :: octet1 i1 i2 :: octet2 i2 i3 :: tl)
                        <$> b64decode rest
                  | None => None
                  end
            | None => None
            end
      | _, _ => None
      end
  | _ => None
  end.

(** The bytes [0 .. 255] and the sextets [0 .. 63], for checks by cases. *)
Definition is_byte (b : N) : Prop := b < 256.
Definition numbers_below (n : nat) : list N := map N.of_nat (seq 0 n).
Definition all_bytes : list N := numbers_below 256.
Definition all_sextets : list N := numbers_below 64.

(** ** [datetime] *)

(** A naive local date and time, as [datetime.now()] returns it. *)
Record datetime := DateTime {
  year : N; month : N; day : N;
  hour : N; minute : N; second : N; microsecond : N
}.

Definition valid_datetime (t : datetime) : bool :=
  (1 <=? year t) && (year t <=? 9999) && (1 <=? month t) && (month t <=? 12)
  && (1 <=? day t) && (day t <=? 31) && (hour t <? 24) && (minute t <? 60)
  && (second t <? 60) && (microsecond t <? 1000000).

(** Month names of the C locale, which the process runs in (the program
    never calls [setlocale]). *)
Definition month_name (m : N) : pystr :=
  py (nth (N.to_nat m)
        [""; "January"; "February"; "March"; "April"; "May"; "June"; "July";
         "August"; "September"; "October"; "November"; "December"]%string
        ""%string).

Definition hour12 (h : N) : N :=
  let r := h mod 12 in if r =? 0 then 12 else r.

Definition am_pm (h : N) : pystr := if h <? 12 then py "AM" else py "PM".

(** One conversion of [strftime], as the C library of the platform (glibc)
    renders it: [%Y] is the year without padding. [%Z] is the empty string
    on a naive datetime. Conversions the handlers do not use are left as
    written. *)
Definition strftime_directive (d : ascii) (t : datetime) : pystr :=
  match d with
  | "B"%char => month_name (month t)
  | "d"%char => zfill 2 (dec (day t))
  | "m"%char => zfill 2 (dec (month t))
  | "Y"%char => dec (year t)
  | "H"%char => zfill 2 (dec (hour t))
  | "I"%char => zfill 2 (dec (hour12 (hour t)))
  | "M"%char => zfill 2 (dec (minute t))
  | "S"%char => zfill 2 (dec (second t))
  | "p"%char => am_pm (hour t)
  | "Z"%char => []
  | "%"%char => py "%"
  | _ => [N_of_ascii "%"; N_of_ascii d]
  end.

Fixpoint strftime_chars (fmt : list ascii) (t : datetime) : pystr :=
  match fmt with
  | [] => []
  | "%"%char :: d :: rest => strftime_directive d t ++ strftime_chars rest t
  | c :: rest => N_of_ascii c :: strftime_chars rest t
  end.

Definition strftime (t : datetime) (fmt : string) : pystr :=
  strftime_chars (list_ascii_of_string fmt) t.

(** [datetime.isoformat()]: the fraction is printed only when it is not 0. *)
Definition isoformat (t : datetime) : pystr :=
  zfill 4 (dec (year t)) ++ py "-" ++ zfill 2 (dec (month t)) ++ py "-" ++
  zfill 2 (dec (day t)) ++ py "T" ++ zfill 2 (dec (hour t)) ++ py ":" ++
  zfill 2 (dec (minute t)) ++ py ":" ++ zfill 2 (dec (second t)) ++
  (if microsecond t =? 0 then [] else py "." ++ zfill 6 (dec (microsecond t))).

(** ** JSON values and Python truthiness *)

(** What [request.get_json()] returns: [None], [bool], [int], [float],
    [str], [list] or [dict]. *)
Inductive json : Type :=
| JNull
| JBool (b : bool)
| JInt (z : Z)
| JFloat (f : float)
| JStr (s : pystr)
| JArr (l : list json)
| JObj (d : gmap pystr json).

(** [bool(v)], the test behind [not v]. *)
Definition truthy (v : json) : bool :=
  match v with
  | JNull => false
  | JBool b => b
  | JInt z => negb (z =? 0)%Z
  | JFloat f => negb (PrimFloat.eqb f 0%float)
  | JStr s => match s with [] => false | _ => true end
  | JArr l => match l with [] => false | _ => true end
  | JObj d => negb (bool_decide (d = ∅))
  end.

(** [type(v).__name__] *)
Definition type_name (v : json) : string :=
  match v with
  | JNull => "NoneType"
  | JBool _ => "bool"
  | JInt _ => "int"
  | JFloat _ => "float"
  | JStr _ => "str"
  | JArr _ => "list"
  | JObj _ => "dict"
  end.

Definition attribute_error (v : json) (attr : string) : exn :=
  Exn "AttributeError"
    (py "'" ++ py (type_name v) ++ py "' object has no attribute '" ++ py attr ++ py "'").

(** ** Messages, responses and the world *)

(** One element of the [attachments] list passed to the mail capability. *)
Record attachment := Attachment {
  filename : pystr;
  content : pystr;
  contentType : pystr;
  encoding : pystr
}.

(** The arguments of one call of [send_email]. *)
Record EmailMessage := Email {
  to : json;
  subject : pystr;
  text : pystr;
  attachments : list attachment
}.

(** A Flask response: the JSON body given to [jsonify] and the status. *)
Record response := Response { body : json; status : N }.

(** The part of the environment a handler can change or observe:
    how many times the clock has been read, what has been printed, and the
    messages handed to the mail capability so far. *)
Record world := World {
  ticks : nat;
  stdout : list pystr;
  outbox : list EmailMessage
}.

(** The deployment: the wall clock ([clock n] is the [n]-th reading of
    [datetime.now()]) and the mail capability, which sees the message and
    the world, prints lines, and returns a value or raises an exception
    (of a subclass of [Exception], the ones [except Exception] catches). *)
Record env := Env {
  clock : nat -> datetime;
  send_email : EmailMessage -> world -> outcome json * list pystr
}.

(** ** The effect monad *)

Definition M (A : Type) : Type := world -> outcome A * world.

Definition ret {A} (a : A) : M A := fun w => (Returned a, w).

Definition raise {A} (e : exn) : M A := fun w => (Raised e, w).

Definition bind {A B} (m : M A) (k : A -> M B) : M B :=
  fun w =>
    match m w with
    | (Returned a, w') => k a w'
    | (Raised e, w') => (Raised e, w')
    end.

(** [try: m except Exception as e: h e] *)
Definition try_except {A} (m : M A) (h : exn -> M A) : M A :=
  fun w =>
    match m w with
    | (Returned a, w') => (Returned a, w')
    | (Raised e, w') => h e w'
    end.

Notation "x <- m ;; k" := (bind m (fun x => k))
  (at level 100, m at next level, right associativity).

Definition lift {A} (o : outcome A) : M A := fun w => (o, w).

(** [print(line)]: raises [UnicodeEncodeError] when standard output cannot
    encode the line. *)
Definition print (line : pystr) : M unit :=
  fun w =>
    match stdout_write line with
    | Returned _ => (Returned tt, World (ticks w) (stdout w ++ [line]) (outbox w))
    | Raised e => (Raised e, w)
    end.

(** [datetime.now()] *)
Definition now (E : env) : M datetime :=
  fun w => (Returned (clock E (ticks w)), World (S (ticks w)) (stdout w) (outbox w)).

(** A call of the mail capability; the call is recorded in [outbox]. *)
Definition call_send_email (E : env) (msg : EmailMessage) : M json :=
  fun w =>
    let (r, lines) := send_email E msg w in
    (r, World (ticks w) (stdout w ++ lines) (outbox w ++ [msg])).

(** A Python [dict] display [{k1: v1, ...}]: later keys win. *)
Definition py_dict (items : list (pystr * json)) : json :=
  JObj (fold_left (fun d kv => <[fst kv := snd kv]> d) items ∅).

(** ** Sample runtime parameters

    A rendering of the scalar values and an [isalnum] table that knows no
    letters outside ASCII, used to run the handlers on concrete inputs. *)

Definition sample_str_of_value (v : json) : pystr :=
  match v with
  | JNull => py "None"
  | JBool true => py "True"
  | JBool false => py "False"
  | JInt (Z.neg n) => py "-" ++ dec (N.pos n)
  | JInt z => dec (Z.to_N z)
  | _ => py "..."
  end.

Definition sample_isalnum (c : codepoint) : bool := false.

(** ** The handlers of [app.py] *)

Section Handlers.

(** [str(v)] of a value that is not a string, as an f-string renders it
    (the interpreter's [repr] of numbers, lists and dicts). *)
Variable str_of_value : json -> pystr.

(** [str.isalnum] on a character outside ASCII, as the Unicode character
    database of the interpreter decides it. *)
Variable unicode_isalnum : codepoint -> bool.

(** [f"{v}"] *)
Definition format_value (v : json) : pystr :=
  match v with
  | JStr s => s
  | _ => str_of_value v
  end.

(** [c.isalnum()] for a one-character string. *)
Definition isalnum (c : codepoint) : bool :=
  if c <? 128 then
    ((48 <=? c) && (c <=? 57)) || ((65 <=? c) && (c <=? 90))
    || ((97 <=? c) && (c <=? 122))
  else unicode_isalnum c.

(** [c in "._-"] for a one-character string. *)
Definition in_punctuation (c : codepoint) : bool := existsb (N.eqb c) (py "._-").

(** The fallback [send_email] defined when [replitmail] cannot be imported. *)
Definition mock_send_email (msg : EmailMessage) (w : world) : outcome json * list pystr :=
  let (r, written) :=
    print_lines
      ([py "MOCK EMAIL - Would send to: " ++ format_value (to msg);
        py "Subject: " ++ subject msg;
        py "Text: " ++ text msg]
       ++ match attachments msg with
          | [] => []
          | _ => [py "Attachments: " ++ dec (N.of_nat (length (attachments msg))) ++
                  py " files"]
          end) in
  (match r with
   | Returned _ => Returned (JBool true)
   | Raised e => Raised e
   end, written).

(** [data.get(key)] *)
Definition py_get (data : json) (key : pystr) : M json :=
  match data with
  | JObj d => ret (default JNull (d !! key))
  | _ => raise (attribute_error data "get")
  end.

(** [data[key]] for a string key *)
Definition py_getitem (data : json) (key : pystr) : M json :=
  match data with
  | JObj d =>
      match d !! key with
      | Some v => ret v
      | None => raise (Exn "KeyError" (py "'" ++ key ++ py "'"))
      end
  | JStr _ => raise (Exn "TypeError" (py "string indices must be integers, not 'str'"))
  | JArr _ => raise (Exn "TypeError" (py "list indices must be integers or slices, not str"))
  | _ => raise (Exn "TypeError"
                  (py "'" ++ py (type_name data) ++ py "' object is not subscriptable"))
  end.

(** [v.encode('utf-8')] *)
Definition py_encode_utf8 (v : json) : M pybytes :=
  match v with
  | JStr s => lift (utf8_encode s)
  | _ => raise (attribute_error v "encode")
  end.

(** [GET /health] *)
Definition health_check (E : env) : M response :=
  t <- now E ;;
  ret (Response (py_dict [(py "status", JStr (py "healthy"));
                          (py "timestamp", JStr (isoformat t))]) 200).

Definition required_fields : list pystr :=
  [py "email"; py "programName"; py "organizationName"; py "htmlContent"].

(** The validation loop: the response of the first field whose value is
    falsy, if there is one. *)
Fixpoint check_required (data : json) (fields : list pystr) : M (option response) :=
  match fields with
  | [] => ret None
  | field :: rest =>
      v <- py_get data field ;;
      if negb (truthy v)
      then ret (Some (Response
                        (py_dict [(py "error", JStr (py "Missing required field: " ++ field))])
                        400))
      else check_required data rest
  end.

Definition nl : pystr := [10].

(** The f-string template of the message text. *)
Definition email_body (program_name organization_name current_datetime : pystr) : pystr :=
  py "Hello," ++ nl ++
  nl ++
  py "Attached is the evaluation plan you requested from the LogicalOutcomes Evaluation Planner." ++ nl ++
  nl ++
  py "It is for " ++ program_name ++ py " delivered by " ++ organization_name ++
  py ". It was generated on " ++ current_datetime ++ py "." ++ nl ++
  nl ++
  py "This is just a draft. If it is inaccurate, feel free to re-try the Evaluation Planner app but add additional useful information in the form." ++ nl ++
  nl ++
  py "If you have any questions, contact support@logicaloutcomes.com." ++ nl ++
  nl ++
  py "Best regards," ++ nl ++
  py "LogicalOutcomes Evaluation Planner".

(** The attachment name: the f-string, then the characters that pass the
    test of the generator expression, joined. *)
Definition make_filename (organization_name program_name : pystr) : pystr :=
  let filename := organization_name ++ py "_" ++ program_name ++ py "_Evaluation_Plan.html" in
  List.filter (fun c => isalnum c || in_punctuation c) filename.

Definition make_subject (program_name organization_name : pystr) : pystr :=
  py "Evaluation Plan for " ++ program_name ++ py " - " ++ organization_name.

(** The body of the [try] block of [send_report]; [request_json] is the
    outcome of [request.get_json()]. *)
Definition send_report_try (E : env) (request_json : outcome json) : M response :=
  data <- lift request_json ;;
  missing <- check_required data required_fields ;;
  match missing with
  | Some bad_request => ret bad_request
  | None =>
      user_email <- py_getitem data (py "email") ;;
      program_name <- py_getitem data (py "programName") ;;
      organization_name <- py_getitem data (py "organizationName") ;;
      html_content <- py_getitem data (py "htmlContent") ;;
      t <- now E ;;
      let current_datetime := strftime t "%B %d, %Y at %I:%M %p %Z" in
      let body_text :=
        email_body (format_value program_name) (format_value organization_name)
          current_datetime in
      let filename :=
        make_filename (format_value organization_name) (format_value program_name) in
      html_bytes <- py_encode_utf8 html_content ;;
      base64_content <- lift (bytes_decode_utf8 (b64encode html_bytes)) ;;
      _ <- call_send_email E
             (Email user_email
                (make_subject (format_value program_name) (format_value organization_name))
                body_text
                [Attachment filename base64_content (py "text/html") (py "base64")]) ;;
      t' <- now E ;;
      ret (Response
             (py_dict [(py "success", JBool true);
                       (py "message",
                        JStr (py "Email sent successfully to " ++ format_value user_email));
                       (py "timestamp", JStr (isoformat t'))])
             200)
  end.

(** [POST /send-report] *)
Definition send_report (E : env) (request_json : outcome json) : M response :=
  try_except (send_report_try E request_json)
    (fun e =>
       _ <- print (py "Error sending email: " ++ exc_message e) ;;
       ret (Response
              (py_dict [(py "error", JStr (py "Failed to send email: " ++ exc_message e))])
              500)).

(** The two routes of the application. *)
Inductive http_request : Type :=
| GET_health
| POST_send_report (request_json : outcome json).

Definition serve (E : env) (r : http_request) : M response :=
  match r with
  | GET_health => health_check E
  | POST_send_report request_json => send_report E request_json
  end.

(** Requests handled one after the other on the same world. A handler
    that raises does not stop the server: the request has no response of
    the handler (the framework answers for it) and the next one is served. *)
Fixpoint serve_all (E : env) (rs : list http_request) (w : world)
    : list (outcome response) * world :=
  match rs with
  | [] => ([], w)
  | r :: rest =>
      let (x, w1) := serve E r w in
      let (xs, w2) := serve_all E rest w1 in
      (x :: xs, w2)
  end.

(** ** Definitions used to state the properties *)

(** The message the handler builds from the three values it interpolates,
    the clock reading and the bytes of the document (lines 48 to 82). *)
Definition report_message (user_email program_name organization_name : json)
    (t : datetime) (html_bytes : pybytes) : EmailMessage :=
  Email user_email
    (make_subject (format_value program_name) (format_value organization_name))
    (email_body (format_value program_name) (format_value organization_name)
       (strftime t "%B %d, %Y at %I:%M %p %Z"))
    [Attachment
       (make_filename (format_value organization_name) (format_value program_name))
       (b64encode html_bytes) (py "text/html") (py "base64")].

(** The requests that reach the call of the mail capability, with the
    values the message is built from: a JSON object whose four fields are
    truthy and whose [htmlContent] is a string that UTF-8 can encode. *)
Definition accepted_report (request_json : outcome json)
    : option (json * json * json * pybytes) :=
  match request_json with
  | Returned (JObj d) =>
      match d !! py "email", d !! py "programName",
            d !! py "organizationName", d !! py "htmlContent" with
      | Some e, Some p, Some o, Some h =>
          if truthy e && truthy p && truthy o && truthy h then
            match h with
            | JStr hs =>
                match utf8_encode hs with
                | Returned bs => Some (e, p, o, bs)
                | Raised _ => None
                end
            | _ => None
            end
          else None
      | _, _, _, _ => None
      end
  | _ => None
  end.

(** A well-formed request: an object with the four fields, all truthy,
    whose document [htmlContent] is a string ([hs], hence not empty). *)
Definition well_formed (d : gmap pystr json) (e p o : json) (hs : pystr) : Prop :=
  d !! py "email" = Some e /\ d !! py "programName" = Some p /\
  d !! py "organizationName" = Some o /\ d !! py "htmlContent" = Some (JStr hs) /\
  truthy e = true /\ truthy p = true /\ truthy o = true /\ hs <> [].

(** A field that is absent from the object or whose value is falsy. *)
Definition missing_or_falsy (d : gmap pystr json) (field : pystr) : Prop :=
  d !! field = None \/ exists v, d !! field = Some v /\ truthy v = false.

(** A field that is present with a truthy value. *)
Definition present_truthy (d : gmap pystr json) (field : pystr) : Prop :=
  exists v, d !! field = Some v /\ truthy v = true.

(** The characters the attachment name may contain. *)
Definition allowed_in_filename (c : codepoint) : Prop :=
  isalnum c = true \/ c = 46 \/ c = 95 \/ c = 45.

(** [dropped s r]: [r] is [s] with every character that is not allowed
    removed, and nothing put in its place. *)
Inductive dropped : pystr -> pystr -> Prop :=
| dropped_nil : dropped [] []
| dropped_keep c s r : allowed_in_filename c -> dropped s r -> dropped (c :: s) (c :: r)
| dropped_drop c s r : ~ allowed_in_filename c -> dropped s r -> dropped (c :: s) r.

(** The time stamp as the specification words it:
    [Month Day, Year at HH:MM AM/PM]. *)
Definition spec_timestamp (t : datetime) : pystr :=
  month_name (month t) ++ py " " ++ zfill 2 (dec (day t)) ++ py ", " ++
  dec (year t) ++ py " at " ++ zfill 2 (dec (hour12 (hour t))) ++ py ":" ++
  zfill 2 (dec (minute t)) ++ py " " ++ am_pm (hour t).

(** The response to a body that is not an object, or that could not be
    read: the text of the exception that reaches the handler. *)
Definition unreadable_message (request_json : outcome json) : pystr :=
  match request_json with
  | Raised e => exc_message e
  | Returned v => exc_message (attribute_error v "get")
  end.

Definition is_object (request_json : outcome json) : bool :=
  match request_json with
  | Returned (JObj _) => true
  | _ => false
  end.

(** ** Sample inputs *)

(** 12 October 2026, 15:05; the seconds count the readings of the clock. *)
Definition sample_clock (n : nat) : datetime :=
  DateTime 2026 10 12 15 5 (N.of_nat n) 0.

(** The service as it runs without [replitmail]. *)
Definition sample_env : env := Env sample_clock mock_send_email.

(** A mail capability that returns for every message. *)
Definition accepting_env : env :=
  Env sample_clock (fun _ _ => (Returned JNull, [])).

(** A mail capability that always raises. *)
Definition failing_env : env :=
  Env sample_clock (fun _ _ => (Raised (Exn "Exception" (py "SMTP timeout")), [])).

(** A mail capability that raises an exception whose text is the lone
    surrogate U+D800. *)
Definition unprintable_failing_env : env :=
  Env sample_clock (fun _ _ => (Raised (Exn "Exception" [0xD800]), [])).

Definition world0 : world := World 0 [] [].

(** [<p>caf] followed by U+00E9 and [</p>]. *)
Definition sample_html : pystr := py "<p>caf" ++ [233] ++ py "</p>".

(** Its UTF-8 encoding: U+00E9 is the two bytes C3 A9. *)
Definition sample_bytes : pybytes := py "<p>caf" ++ [0xC3; 0xA9] ++ py "</p>".

Definition sample_request : gmap pystr json :=
  <[py "email" := JStr (py "user@example.org")]>
  (<[py "programName" := JStr (py "Youth/2024")]>
  (<[py "organizationName" := JStr (py "Acme Corp!")]>
  (<[py "htmlContent" := JStr sample_html]> ∅))).

(** The same request with a lone surrogate, U+D800, as the document. *)
Definition surrogate_request : gmap pystr json :=
  <[py "htmlContent" := JStr [0xD800]]> sample_request.

(** A request whose [programName] is the empty string and that has no
    [htmlContent]. *)
Definition incomplete_request : gmap pystr json :=
  <[py "email" := JStr (py "user@example.org")]>
  (<[py "programName" := JStr []]>
  (<[py "organizationName" := JStr (py "Acme Corp!")]> ∅)).

(** ** Definitions used to state the further properties *)

(** The three bodies the handler gives to [jsonify]. *)
Definition missing_response (field : pystr) : response :=
  Response (py_dict [(py "error", JStr (py "Missing required field: " ++ field))]) 400.

Definition failure_response (ex : exn) : response :=
  Response (py_dict [(py "error", JStr (py "Failed to send email: " ++ exc_message ex))]) 500.

Definition success_response (user_email : json) (t : datetime) : response :=
  Response
    (py_dict [(py "success", JBool true);
              (py "message",
               JStr (py "Email sent successfully to " ++ format_value user_email));
              (py "timestamp", JStr (isoformat t))])
    200.

(** The line the [except] clause prints. *)
Definition error_line (ex : exn) : pystr := py "Error sending email: " ++ exc_message ex.

(** The [except] clause of [send_report] on the exception it caught. *)
Definition except_clause (ex : exn) : M response :=
  _ <- print (error_line ex) ;; ret (failure_response ex).

(** How far a request gets in [send_report], read off the request alone:
    [get_json] or the first [data.get] raises; a field fails the
    validation; the document cannot be turned into bytes; or the mail
    capability is called with the message built from these values. *)
Inductive verdict : Type :=
| Unreadable (ex : exn)
| MissingField (field : pystr)
| BadDocument (ex : exn)
| Accepted (e p o : json) (bs : pybytes).

Definition classify (request_json : outcome json) : verdict :=
  match request_json with
  | Raised ex => Unreadable ex
  | Returned (JObj d) =>
      match find (fun f => negb (truthy (default JNull (d !! f)))) required_fields with
      | Some field => MissingField field
      | None =>
          match default JNull (d !! py "htmlContent") with
          | JStr hs =>
              match utf8_encode hs with
              | Returned bs =>
                  Accepted (default JNull (d !! py "email"))
                    (default JNull (d !! py "programName"))
                    (default JNull (d !! py "organizationName")) bs
              | Raised ex => BadDocument ex
              end
          | h => BadDocument (attribute_error h "encode")
          end
      end
  | Returned v => Unreadable (attribute_error v "get")
  end.

(** The filter of the generator expression on its own. *)
Definition sanitize (s : pystr) : pystr :=
  List.filter (fun c => isalnum c || in_punctuation c) s.

(** The ASCII characters that pass the filter: digits, letters, [.], [_], [-]. *)
Definition ascii_filename_char (c : codepoint) : bool :=
  ((48 <=? c) && (c <=? 57)) || ((65 <=? c) && (c <=? 90)) || ((97 <=? c) && (c <=? 122))
  || (c =? 46) || (c =? 95) || (c =? 45).

(** Characters that are special in file paths and shells: the separators,
    the wildcards, blanks, quotes, NUL, tab, line feed, carriage return. *)
Definition path_special : pystr := py "/\:*?<>|~$&;' " ++ [0; 9; 10; 13; 34].

(** A character of base64 text: one of the alphabet, or the padding. *)
Definition b64_symbol (c : N) : Prop := In c b64_alphabet \/ c = b64_pad.

Definition count_posts (rs : list http_request) : nat :=
  length (List.filter (fun r => match r with POST_send_report _ => true | GET_health => false end) rs).

(** ** Further sample inputs *)

(** The sample request with the lone surrogate U+D800 as [programName]. *)
Definition surrogate_program_request : gmap pystr json :=
  <[py "programName" := JStr [0xD800]]> sample_request.

(** The sample request with the number 5 as its document. *)
Definition numeric_document_request : gmap pystr json :=
  <[py "htmlContent" := JInt 5]> sample_request.

(** The sample request with two fields the handler does not know. *)
Definition annotated_request : gmap pystr json :=
  <[py "note" := JStr (py "urgent")]> (<[py "copies" := JInt 2]> sample_request).

(** The message built from the sample request at the first reading of the
    sample clock. *)
Definition sample_message : EmailMessage :=
  report_message (JStr (py "user@example.org")) (JStr (py "Youth/2024"))
    (JStr (py "Acme Corp!")) (sample_clock 0) sample_bytes.

(** ** Proof automation *)

(** Unfolding of the monad and of the Python primitives in a goal. *)
Ltac run_handler :=
  cbv beta iota zeta delta
    [send_report send_report_try check_required required_fields try_except bind ret
     raise lift print now call_send_email py_get py_getitem py_encode_utf8
     health_check serve default from_option id];
  cbn [ticks stdout outbox negb].

(** * Properties *)

(** ** Bytes and bit operations *)

Lemma in_all_bytes (b : N) : b < 256 -> In b all_bytes.
Proof.
  intros Hb. unfold all_bytes, numbers_below.
  replace b with (N.of_nat (N.to_nat b)) by apply N2Nat.id.
  apply in_map, in_seq. lia.
Qed.

(** Checking a decidable fact about one or two bytes on all of them. *)
Lemma byte_cases (P : N -> bool) :
  forallb P all_bytes = true -> forall b, b < 256 -> P b = true.
Proof.
  intros Hall b Hb. rewrite forallb_forall in Hall. apply Hall, in_all_bytes, Hb.
Qed.

Lemma byte_cases2 (P : N -> N -> bool) :
  forallb (fun a => forallb (P a) all_bytes) all_bytes = true ->
  forall a b, a < 256 -> b < 256 -> P a b = true.
Proof.
  intros Hall a b Ha Hb.
  apply (byte_cases (P a)); [|exact Hb].
  apply (byte_cases (fun a => forallb (P a) all_bytes)); assumption.
Qed.

Lemma lor_lt_pow2 (a b n : N) : a < 2 ^ n -> b < 2 ^ n -> N.lor a b < 2 ^ n.
Proof.
  intros Ha Hb.
  destruct (N.eq_dec (N.lor a b) 0) as [Hz | Hnz].
  - rewrite Hz. lia.
  - apply N.log2_lt_pow2; [lia|].
    rewrite N.log2_lor.
    assert (Hn : 0 < n).
    { destruct (N.eq_dec n 0) as [-> | ]; [|lia].
      simpl in Ha, Hb. assert (a = 0) by lia. assert (b = 0) by lia.
      subst. now elim Hnz. }
    assert (La : N.log2 a < n).
    { destruct (N.eq_dec a 0) as [-> | ]; [exact Hn|]. apply N.log2_lt_pow2; lia. }
    assert (Lb : N.log2 b < n).
    { destruct (N.eq_dec b 0) as [-> | ]; [exact Hn|]. apply N.log2_lt_pow2; lia. }
    lia.
Qed.

Lemma land_mask6 (x : N) : N.land x 0x3F < 64.
Proof.
  change 0x3F with (N.ones 6). rewrite N.land_ones.
  apply N.mod_lt. discriminate.
Qed.

Lemma continuation_byte (x : N) : is_byte (N.lor 0x80 (N.land x 0x3F)).
Proof.
  unfold is_byte. change 256 with (2 ^ 8). apply lor_lt_pow2.
  - reflexivity.
  - pose proof (land_mask6 x). change (2 ^ 8) with 256. lia.
Qed.

Lemma utf8_encode_char_bytes (c : codepoint) : Forall is_byte (utf8_encode_char c).
Proof.
  unfold utf8_encode_char.
  destruct (c <? 0x80) eqn:H1; [|destruct (c <? 0x800) eqn:H2; [|destruct (c <? 0x10000) eqn:H3]].
  - apply N.ltb_lt in H1. repeat constructor. unfold is_byte. lia.
  - apply N.ltb_lt in H2. repeat constructor; [|apply continuation_byte].
    unfold is_byte. change 256 with (2 ^ 8). apply lor_lt_pow2; [reflexivity|].
    rewrite N.shiftr_div_pow2. change (2 ^ 6) with 64. change (2 ^ 8) with 256.
    assert (c / 64 < 32) by (apply N.Div0.div_lt_upper_bound; lia). lia.
  - apply N.ltb_lt in H3. repeat constructor; try apply continuation_byte.
    unfold is_byte. change 256 with (2 ^ 8). apply lor_lt_pow2; [reflexivity|].
    rewrite N.shiftr_div_pow2. change (2 ^ 12) with 4096. change (2 ^ 8) with 256.
    assert (c / 4096 < 16) by (apply N.Div0.div_lt_upper_bound; lia). lia.
  - repeat constructor; try apply continuation_byte.
    unfold is_byte. apply N.mod_lt. discriminate.
Qed.

Lemma utf8_encode_from_bytes (s : pystr) :
  forall pos bs, utf8_encode_from pos s = Returned bs -> Forall is_byte bs.
Proof.
  induction s as [|c r IH]; intros pos bs H; simpl in H.
  - inversion H. constructor.
  - destruct (is_surrogate c); [discriminate|].
    destruct (utf8_encode_from (S pos) r) as [bs'|e] eqn:Hr; [|discriminate].
    inversion H; subst. apply Forall_app. split.
    + apply utf8_encode_char_bytes.
    + eapply IH, Hr.
Qed.

Lemma utf8_encode_bytes (s : pystr) (bs : pybytes) :
  utf8_encode s = Returned bs -> Forall is_byte bs.
Proof. apply utf8_encode_from_bytes. Qed.

(** ** UTF-8: decoding what was encoded *)

(** A number is its high part, shifted back, joined with its low bits. *)
Lemma shift_split (c n : N) :
  N.lor (N.shiftl (N.shiftr c n) n) (N.land c (N.ones n)) = c.
Proof.
  apply N.bits_inj. intros i. rewrite N.lor_spec, N.land_spec.
  destruct (N.lt_ge_cases i n) as [Hlt | Hge].
  - rewrite N.shiftl_spec_low, N.ones_spec_low by assumption.
    now rewrite orb_false_l, andb_true_r.
  - rewrite N.shiftl_spec_high', N.shiftr_spec', N.ones_spec_high by assumption.
    rewrite andb_false_r, orb_false_r. f_equal. lia.
Qed.

(** The same for a number cut at [n + k] bits and split at [n]. *)
Lemma shift_split_low (c n k : N) :
  N.lor (N.shiftl (N.land (N.shiftr c n) (N.ones k)) n) (N.land c (N.ones n)) =
  N.land c (N.ones (n + k)).
Proof.
  apply N.bits_inj. intros i.
  rewrite N.lor_spec, !N.land_spec.
  destruct (N.lt_ge_cases i n) as [Hlt | Hge].
  - rewrite N.shiftl_spec_low, !N.ones_spec_low by lia. reflexivity.
  - rewrite N.shiftl_spec_high', N.land_spec, N.shiftr_spec' by assumption.
    rewrite (N.ones_spec_high n i) by assumption.
    rewrite andb_false_r, orb_false_r.
    replace (i - n + n) with i by lia.
    destruct (N.lt_ge_cases i (n + k)) as [Hlt' | Hge'].
    + rewrite !N.ones_spec_low by lia. reflexivity.
    + rewrite !N.ones_spec_high by lia. reflexivity.
Qed.

Lemma below_cases (n : nat) (P : N -> bool) :
  forallb P (numbers_below n) = true -> forall x, x < N.of_nat n -> P x = true.
Proof.
  intros Hall x Hx. rewrite forallb_forall in Hall. apply Hall.
  unfold numbers_below. replace x with (N.of_nat (N.to_nat x)) by apply N2Nat.id.
  apply in_map, in_seq. lia.
Qed.

Lemma continuation_low (y : N) :
  y < 64 -> is_continuation (N.lor 0x80 y) = true /\ N.land (N.lor 0x80 y) 0x3F = y.
Proof.
  intros Hy.
  pose proof (below_cases 64
    (fun y => is_continuation (N.lor 0x80 y) && (N.land (N.lor 0x80 y) 0x3F =? y))
    ltac:(vm_compute; reflexivity) y Hy) as H.
  cbv beta in H. now rewrite andb_true_iff, N.eqb_eq in H.
Qed.

Lemma lead2_tests (q : N) :
  2 <= q < 32 ->
  (N.lor 0xC0 q <? 0x80) = false /\
  (0xC2 <=? N.lor 0xC0 q) && (N.lor 0xC0 q <=? 0xDF) = true /\
  N.land (N.lor 0xC0 q) 0x1F = q.
Proof.
  intros [Hlo Hhi].
  pose proof (below_cases 32
    (fun q => (q <? 2) ||
              negb (N.lor 0xC0 q <? 0x80) && (0xC2 <=? N.lor 0xC0 q)
              && (N.lor 0xC0 q <=? 0xDF) && (N.land (N.lor 0xC0 q) 0x1F =? q))
    ltac:(vm_compute; reflexivity) q Hhi) as H.
  cbv beta in H. apply orb_true_iff in H as [H | H]; [apply N.ltb_lt in H; lia|].
  rewrite !andb_true_iff, negb_true_iff, N.eqb_eq in H.
  destruct H as (((H1 & H2) & H3) & H4). rewrite H1, H2, H3, H4. now repeat split.
Qed.

Lemma lead3_tests (q : N) :
  q < 16 ->
  (N.lor 0xE0 q <? 0x80) = false /\
  (0xC2 <=? N.lor 0xE0 q) && (N.lor 0xE0 q <=? 0xDF) = false /\
  (0xE0 <=? N.lor 0xE0 q) && (N.lor 0xE0 q <=? 0xEF) = true /\
  N.land (N.lor 0xE0 q) 0x0F = q.
Proof.
  intros Hq.
  pose proof (below_cases 16
    (fun q => negb (N.lor 0xE0 q <? 0x80)
              && negb ((0xC2 <=? N.lor 0xE0 q) && (N.lor 0xE0 q <=? 0xDF))
              && ((0xE0 <=? N.lor 0xE0 q) && (N.lor 0xE0 q <=? 0xEF))
              && (N.land (N.lor 0xE0 q) 0x0F =? q))
    ltac:(vm_compute; reflexivity) q Hq) as H.
  cbv beta in H. rewrite !andb_true_iff, !negb_true_iff, N.eqb_eq in H.
  destruct H as (((H1 & H2) & H3 & H3') & H4).
  rewrite H1, H2, H3, H3', H4. now repeat split.
Qed.

Lemma lead4_tests (q : N) :
  q < 5 ->
  let b0 := N.lor 0xF0 q mod 256 in
  (b0 <? 0x80) = false /\
  (0xC2 <=? b0) && (b0 <=? 0xDF) = false /\
  (0xE0 <=? b0) && (b0 <=? 0xEF) = false /\
  (0xF0 <=? b0) && (b0 <=? 0xF4) = true /\
  N.land b0 0x07 = q.
Proof.
  intros Hq b0. subst b0.
  pose proof (below_cases 5
    (fun q => let b0 := N.lor 0xF0 q mod 256 in
              negb (b0 <? 0x80)
              && negb ((0xC2 <=? b0) && (b0 <=? 0xDF))
              && negb ((0xE0 <=? b0) && (b0 <=? 0xEF))
              && ((0xF0 <=? b0) && (b0 <=? 0xF4))
              && (N.land b0 0x07 =? q))
    ltac:(vm_compute; reflexivity) q Hq) as H.
  cbv beta zeta in H. rewrite !andb_true_iff, !negb_true_iff, N.eqb_eq in H.
  destruct H as ((((H1 & H2) & H3) & H4 & H4') & H5).
  rewrite H1, H2, H3, H4, H4', H5. now repeat split.
Qed.

(** Decoding the bytes of one scalar value gives it back and goes on with
    the bytes that follow. *)
Lemma utf8_decode_char (c : codepoint) (rest : pybytes) :
  is_scalar c = true ->
  utf8_decode (utf8_encode_char c ++ rest) = cons c <$> utf8_decode rest.
Proof.
  unfold is_scalar, is_codepoint. intros Hc.
  apply andb_true_iff in Hc as [Hmax Hsur]. apply N.ltb_lt in Hmax.
  apply negb_true_iff in Hsur.
  unfold utf8_encode_char.
  destruct (c <? 0x80) eqn:H1; [|destruct (c <? 0x800) eqn:H2; [|destruct (c <? 0x10000) eqn:H3]].
  - cbn [app utf8_decode]. now rewrite H1.
  - apply N.ltb_ge in H1. apply N.ltb_lt in H2.
    assert (Hq : 2 <= N.shiftr c 6 < 32).
    { rewrite N.shiftr_div_pow2. change (2 ^ 6) with 64. split.
      - apply N.div_le_lower_bound; lia.
      - apply N.Div0.div_lt_upper_bound; lia. }
    destruct (lead2_tests _ Hq) as (T1 & T2 & T3).
    destruct (continuation_low _ (land_mask6 c)) as (C1 & C2).
    cbn [app utf8_decode]. rewrite T1, T2, C1, T3, C2.
    change 0x3F with (N.ones 6). now rewrite shift_split.
  - apply N.ltb_ge in H2. apply N.ltb_lt in H3.
    assert (Hq : N.shiftr c 12 < 16).
    { rewrite N.shiftr_div_pow2. change (2 ^ 12) with 4096.
      apply N.Div0.div_lt_upper_bound; lia. }
    destruct (lead3_tests _ Hq) as (T1 & T2 & T3 & T4).
    destruct (continuation_low _ (land_mask6 (N.shiftr c 6))) as (C1 & C2).
    destruct (continuation_low _ (land_mask6 c)) as (D1 & D2).
    cbn [app utf8_decode]. rewrite T1, T2, T3. cbv zeta. rewrite C1, D1, T4, C2, D2.
    change 0x3F with (N.ones 6).
    rewrite (shift_split_low c 6 6). change (6 + 6) with 12. rewrite shift_split.
    apply N.leb_le in H2. rewrite H2, Hsur. reflexivity.
  - apply N.ltb_ge in H3.
    assert (Hq : N.shiftr c 18 < 5).
    { rewrite N.shiftr_div_pow2. change (2 ^ 18) with 262144.
      apply N.Div0.div_lt_upper_bound; lia. }
    destruct (lead4_tests _ Hq) as (T1 & T2 & T3 & T4 & T5).
    destruct (continuation_low _ (land_mask6 (N.shiftr c 12))) as (B1 & B2).
    destruct (continuation_low _ (land_mask6 (N.shiftr c 6))) as (C1 & C2).
    destruct (continuation_low _ (land_mask6 c)) as (D1 & D2).
    cbn [app utf8_decode]. rewrite T1, T2, T3, T4. cbv zeta.
    rewrite B1, C1, D1, T5, B2, C2, D2.
    change 0x3F with (N.ones 6).
    rewrite (shift_split_low c 6 6). change (6 + 6) with 12.
    rewrite (shift_split_low c 12 6). change (12 + 6) with 18. rewrite shift_split.
    apply N.leb_le in H3. apply N.ltb_lt in Hmax.
    unfold is_codepoint. rewrite H3, Hmax. reflexivity.
Qed.

Lemma utf8_decode_encode_from (s : pystr) :
  forall pos bs,
    Forall (fun c => is_codepoint c = true) s ->
    utf8_encode_from pos s = Returned bs -> utf8_decode bs = Some s.
Proof.
  induction s as [|c r IH]; intros pos bs Hs H; cbn [utf8_encode_from] in H.
  - now inversion H.
  - destruct (is_surrogate c) eqn:Hsur; [discriminate|].
    destruct (utf8_encode_from (S pos) r) as [bs'|e] eqn:Hr; [|discriminate].
    inversion H; subst bs. inversion Hs as [|? ? Hc Hr']; subst.
    rewrite utf8_decode_char by (unfold is_scalar; now rewrite Hc, Hsur).
    now rewrite (IH _ _ Hr' Hr).
Qed.

(** What [str.encode('utf-8')] returns decodes to the string. *)
Lemma utf8_decode_encode (s : pystr) (bs : pybytes) :
  Forall (fun c => is_codepoint c = true) s ->
  utf8_encode s = Returned bs -> utf8_decode bs = Some s.
Proof. apply utf8_decode_encode_from. Qed.

(** ** Base64 *)

Lemma in_all_sextets (i : N) : i < 64 -> In i all_sextets.
Proof.
  intros Hi. unfold all_sextets, numbers_below.
  replace i with (N.of_nat (N.to_nat i)) by apply N2Nat.id.
  apply in_map, in_seq. lia.
Qed.

Lemma b64_index_char (i : N) : i < 64 -> b64_index (b64_char i) = Some i.
Proof.
  intros Hi.
  assert (Hall : forallb (fun j => match b64_index (b64_char j) with
                                   | Some k => k =? j
                                   | None => false
                                   end) all_sextets = true) by (vm_compute; reflexivity).
  rewrite forallb_forall in Hall. specialize (Hall i (in_all_sextets i Hi)).
  destruct (b64_index (b64_char i)) as [k|]; [|discriminate].
  apply N.eqb_eq in Hall. now subst.
Qed.

Lemma b64_char_ascii (i : N) : b64_char i < 128.
Proof.
  unfold b64_char.
  destruct (nth_in_or_default (N.to_nat i) b64_alphabet 0) as [Hin | ->]; [|lia].
  assert (Hall : forallb (fun c => c <? 128) b64_alphabet = true) by (vm_compute; reflexivity).
  rewrite forallb_forall in Hall. apply N.ltb_lt, Hall, Hin.
Qed.

Lemma b64_char_not_pad (i : N) : (b64_char i =? b64_pad) = false.
Proof.
  unfold b64_char.
  destruct (nth_in_or_default (N.to_nat i) b64_alphabet 0) as [Hin | ->]; [|reflexivity].
  assert (Hall : forallb (fun c => negb (c =? b64_pad)) b64_alphabet = true)
    by (vm_compute; reflexivity).
  rewrite forallb_forall in Hall. apply negb_true_iff, Hall, Hin.
Qed.

Lemma sextets_small (a b : N) :
  a < 256 -> b < 256 ->
  sextet0 a < 64 /\ sextet1 a b < 64 /\ sextet2 a b < 64 /\ sextet3 a < 64
  /\ sextet1_last a < 64 /\ sextet2_last a < 64.
Proof.
  intros Ha Hb.
  pose proof (byte_cases2
    (fun a b => (sextet0 a <? 64) && (sextet1 a b <? 64) && (sextet2 a b <? 64)
                && (sextet3 a <? 64) && (sextet1_last a <? 64) && (sextet2_last a <? 64))
    ltac:(vm_compute; reflexivity) a b Ha Hb) as H.
  cbv beta in H. rewrite !andb_true_iff, !N.ltb_lt in H. tauto.
Qed.

(** Each byte is recovered from the two sextets that carry its bits; the
    third byte of the group does not influence the first, and so on. *)
Lemma octet0_sextets (b0 b1 : N) :
  b0 < 256 -> b1 < 256 -> octet0 (sextet0 b0) (sextet1 b0 b1) = b0.
Proof.
  intros H0 H1. apply N.eqb_eq.
  exact (byte_cases2 (fun a b => octet0 (sextet0 a) (sextet1 a b) =? a)
           ltac:(vm_compute; reflexivity) b0 b1 H0 H1).
Qed.

Lemma octet0_last (b0 : N) :
  b0 < 256 -> octet0 (sextet0 b0) (sextet1_last b0) = b0.
Proof.
  intros H0. apply N.eqb_eq.
  exact (byte_cases (fun a => octet0 (sextet0 a) (sextet1_last a) =? a)
           ltac:(vm_compute; reflexivity) b0 H0).
Qed.

Lemma octet1_low (b0 b1 : N) :
  b0 < 256 -> b1 < 256 -> N.land (sextet1 b0 b1) 15 = N.shiftr b1 4.
Proof.
  intros H0 H1. apply N.eqb_eq.
  exact (byte_cases2 (fun a b => N.land (sextet1 a b) 15 =? N.shiftr b 4)
           ltac:(vm_compute; reflexivity) b0 b1 H0 H1).
Qed.

Lemma octet1_high (b1 b2 : N) :
  b1 < 256 -> b2 < 256 -> N.shiftr (sextet2 b1 b2) 2 = N.land b1 15.
Proof.
  intros H1 H2. apply N.eqb_eq.
  exact (byte_cases2 (fun a b => N.shiftr (sextet2 a b) 2 =? N.land a 15)
           ltac:(vm_compute; reflexivity) b1 b2 H1 H2).
Qed.

Lemma byte_nibbles (b : N) :
  b < 256 -> N.lor (N.shiftl (N.shiftr b 4) 4) (N.land b 15) = b.
Proof.
  intros Hb. apply N.eqb_eq.
  exact (byte_cases (fun a => N.lor (N.shiftl (N.shiftr a 4) 4) (N.land a 15) =? a)
           ltac:(vm_compute; reflexivity) b Hb).
Qed.

Lemma octet1_sextets (b0 b1 b2 : N) :
  b0 < 256 -> b1 < 256 -> b2 < 256 ->
  octet1 (sextet1 b0 b1) (sextet2 b1 b2) = b1.
Proof.
  intros H0 H1 H2. unfold octet1.
  rewrite octet1_low, octet1_high by assumption. now apply byte_nibbles.
Qed.

Lemma octet1_last (b0 b1 : N) :
  b0 < 256 -> b1 < 256 -> octet1 (sextet1 b0 b1) (sextet2_last b1) = b1.
Proof.
  intros H0 H1. apply N.eqb_eq.
  exact (byte_cases2 (fun a b => octet1 (sextet1 a b) (sextet2_last b) =? b)
           ltac:(vm_compute; reflexivity) b0 b1 H0 H1).
Qed.

Lemma octet2_sextets (b1 b2 : N) :
  b1 < 256 -> b2 < 256 -> octet2 (sextet2 b1 b2) (sextet3 b2) = b2.
Proof.
  intros H1 H2. apply N.eqb_eq.
  exact (byte_cases2 (fun a b => octet2 (sextet2 a b) (sextet3 b) =? b)
           ltac:(vm_compute; reflexivity) b1 b2 H1 H2).
Qed.

(** Induction on a list three elements at a time. *)
Lemma list_triples_ind {A} (P : list A -> Prop) :
  P [] -> (forall a, P [a]) -> (forall a b, P [a; b]) ->
  (forall a b c l, P l -> P (a :: b :: c :: l)) ->
  forall l, P l.
Proof.
  intros Hnil Hone Htwo Hstep.
  fix IH 1. intros [|a [|b [|c l]]].
  - exact Hnil.
  - apply Hone.
  - apply Htwo.
  - apply Hstep, IH.
Qed.

Lemma b64decode_encode (bs : pybytes) :
  Forall is_byte bs -> b64decode (b64encode bs) = Some bs.
Proof.
  induction bs as [|b0|b0 b1|b0 b1 b2 rest IH] using list_triples_ind; intros Hbs.
  - reflexivity.
  - inversion Hbs as [|? ? H0 _]; subst.
    destruct (sextets_small b0 0 H0 ltac:(reflexivity)) as (S0 & _ & _ & _ & S1 & _).
    cbn [b64encode b64decode].
    rewrite !b64_index_char by assumption.
    rewrite N.eqb_refl.
    rewrite octet0_last by assumption. reflexivity.
  - inversion Hbs as [|? ? H0 Hr]; subst. inversion Hr as [|? ? H1 _]; subst.
    destruct (sextets_small b0 b1 H0 H1) as (S0 & S1 & _).
    destruct (sextets_small b1 0 H1 ltac:(reflexivity)) as (_ & _ & _ & _ & _ & S2).
    cbn [b64encode b64decode].
    rewrite !b64_index_char by assumption.
    rewrite b64_char_not_pad, N.eqb_refl.
    rewrite octet0_sextets, octet1_last by assumption. reflexivity.
  - inversion Hbs as [|? ? H0 Hr]; subst. inversion Hr as [|? ? H1 Hr']; subst.
    inversion Hr' as [|? ? H2 Hrest]; subst.
    destruct (sextets_small b0 b1 H0 H1) as (S0 & S1 & _).
    destruct (sextets_small b1 b2 H1 H2) as (_ & _ & S2 & _).
    destruct (sextets_small b2 0 H2 ltac:(reflexivity)) as (_ & _ & _ & S3 & _).
    cbn [b64encode b64decode].
    rewrite !b64_index_char by assumption.
    rewrite !b64_char_not_pad.
    rewrite octet0_sextets, octet1_sextets, octet2_sextets by assumption.
    rewrite (IH Hrest). reflexivity.
Qed.

Lemma b64encode_ascii (bs : pybytes) : Forall (fun c => c < 128) (b64encode bs).
Proof.
  induction bs as [|b0|b0 b1|b0 b1 b2 rest IH] using list_triples_ind;
    cbn [b64encode]; repeat constructor; try apply b64_char_ascii; assumption.
Qed.

Lemma utf8_decode_ascii (bs : pybytes) :
  Forall (fun c => c < 128) bs -> utf8_decode bs = Some bs.
Proof.
  induction 1 as [|b r Hb _ IH]; [reflexivity|].
  cbn [utf8_decode]. apply N.ltb_lt in Hb. change 0x80 with 128. rewrite Hb, IH. reflexivity.
Qed.

(** The base64 text is ASCII, so decoding it as UTF-8 cannot fail and
    yields the same characters. *)
Lemma bytes_decode_b64encode (bs : pybytes) :
  bytes_decode_utf8 (b64encode bs) = Returned (b64encode bs).
Proof.
  unfold bytes_decode_utf8. now rewrite utf8_decode_ascii by apply b64encode_ascii.
Qed.

(** ** The codecs and formats on known values *)

Example b64encode_Man : b64encode (py "Man") = py "TWFu".
Proof. reflexivity. Qed.

Example b64encode_Ma : b64encode (py "Ma") = py "TWE=".
Proof. reflexivity. Qed.

Example b64decode_TQ : b64decode (py "TQ==") = Some (py "M").
Proof. reflexivity. Qed.

Example b64decode_rejects_early_padding : b64decode (py "TQ==TWFu") = None.
Proof. reflexivity. Qed.

Example utf8_encode_euro : utf8_encode [0x20AC] = Returned [0xE2; 0x82; 0xAC].
Proof. reflexivity. Qed.

Example utf8_encode_emoji : utf8_encode [0x1F600] = Returned [0xF0; 0x9F; 0x98; 0x80].
Proof. reflexivity. Qed.

Example utf8_decode_euro : utf8_decode [0xE2; 0x82; 0xAC] = Some [0x20AC].
Proof. reflexivity. Qed.

Example utf8_decode_rejects_overlong : utf8_decode [0xC0; 0x80] = None.
Proof. reflexivity. Qed.

Example utf8_encode_surrogate_pair :
  utf8_encode [97; 0xD83D; 0xDE00] =
  Raised (Exn "UnicodeEncodeError"
    (py "'utf-8' codec can't encode characters in position 1-2: surrogates not allowed")).
Proof. reflexivity. Qed.

Example strftime_midnight :
  strftime (DateTime 2025 1 5 0 7 30 0) "%B %d, %Y at %I:%M %p %Z" =
  py "January 05, 2025 at 12:07 AM ".
Proof. reflexivity. Qed.

Example isoformat_fraction :
  isoformat (DateTime 2026 1 2 3 4 5 678) = py "2026-01-02T03:04:05.000678".
Proof. reflexivity. Qed.

Example truthy_values :
  map truthy [JNull; JBool false; JInt 0; JFloat (-0)%float; JStr []; JArr []; JObj ∅;
              JInt (-1); JFloat 0.5%float; JStr (py " "); JArr [JNull]] =
  [false; false; false; false; false; false; false; true; true; true; true].
Proof. vm_compute. reflexivity. Qed.

(** ** What standard output can encode *)

Lemma utf8_encode_from_clean (s : pystr) :
  printable s ->
  forall pos, utf8_encode_from pos s = Returned (concat (map utf8_encode_char s)).
Proof.
  induction 1 as [|x s Hx _ IH]; intros pos; cbn [utf8_encode_from map concat].
  - reflexivity.
  - now rewrite Hx, IH.
Qed.

(** The strict encoder stops at the first surrogate. *)
Lemma utf8_encode_from_surrogate (pre post : pystr) (c : N) :
  printable pre -> is_surrogate c = true ->
  forall pos,
    utf8_encode_from pos (pre ++ c :: post) =
    Raised (unicode_encode_error (pos + length pre) (surrogate_run (c :: post)) c).
Proof.
  intros Hpre Hc. induction Hpre as [|x pre Hx _ IH]; intros pos.
  - cbn [app utf8_encode_from length]. rewrite Hc. now rewrite Nat.add_0_r.
  - cbn [app utf8_encode_from length]. rewrite Hx, IH. f_equal. f_equal. lia.
Qed.

Lemma first_surrogate (s : pystr) :
  Exists (fun x => is_surrogate x = true) s ->
  exists pre (c : N) post,
    s = pre ++ c :: post /\ printable pre /\ is_surrogate c = true.
Proof.
  induction s as [|x s IH]; intros Hex; [inversion Hex|].
  destruct (is_surrogate x) eqn:Hx.
  - exists [], x, s. repeat split; [constructor|exact Hx].
  - assert (Hs : Exists (fun x => is_surrogate x = true) s).
    { inversion Hex as [? ? H | ? ? H]; subst; [congruence|exact H]. }
    destruct (IH Hs) as (pre & c & post & -> & Hpre & Hc).
    exists (x :: pre), c, post. repeat split; [now constructor|exact Hc].
Qed.

Lemma printable_or_surrogate (s : pystr) :
  printable s \/ Exists (fun x => is_surrogate x = true) s.
Proof.
  induction s as [|x s [IH | IH]].
  - left. constructor.
  - destruct (is_surrogate x) eqn:Hx.
    + right. now constructor.
    + left. now constructor.
  - right. now apply List.Exists_cons_tl.
Qed.

Lemma printable_app (a b : pystr) : printable a -> printable b -> printable (a ++ b).
Proof. intros Ha Hb. apply Forall_app. now split. Qed.

Lemma small_printable (s : pystr) : Forall (fun c => c < 256) s -> printable s.
Proof.
  unfold printable. intros Hs. eapply Forall_impl; [exact Hs|].
  intros c Hc. cbv beta in *. unfold is_surrogate.
  apply andb_false_iff. left. apply N.leb_gt. lia.
Qed.

(** A literal of the source is printable. *)
Lemma py_printable (s : string) : printable (py s).
Proof.
  apply small_printable. unfold py.
  induction s as [|a s IH]; cbn [list_ascii_of_string map]; constructor.
  - apply N_ascii_bounded.
  - exact IH.
Qed.

Lemma hex4_printable (c : N) : printable (hex4 c).
Proof.
  assert (Hd : forall x, hex_digit (N.land x 15) < 256).
  { intros x. unfold hex_digit.
    assert (N.land x 15 < 16).
    { change 15 with (N.ones 4). rewrite N.land_ones. apply N.mod_lt. discriminate. }
    destruct (N.land x 15 <? 10); lia. }
  apply small_printable. unfold hex4. repeat constructor; apply Hd.
Qed.

Lemma zfill_printable (width : nat) (s : pystr) : printable s -> printable (zfill width s).
Proof.
  intros Hs. unfold zfill. apply printable_app; [|exact Hs].
  apply small_printable, Forall_forall. intros c Hc.
  apply list_elem_of_In, repeat_spec in Hc. subst. reflexivity.
Qed.

Lemma attribute_error_printable (v : json) (attr : string) :
  printable (exc_message (attribute_error v attr)).
Proof. cbn [attribute_error exc_message]. repeat apply printable_app; apply py_printable. Qed.

Lemma unicode_encode_error_printable (start run : nat) (c : N) :
  printable (exc_message (unicode_encode_error start run c)).
Proof.
  unfold unicode_encode_error. cbn [exc_message].
  destruct run as [|[|run]];
    repeat apply printable_app;
    first [apply py_printable | apply hex4_printable].
Qed.

(** The text of the exception the encoder raises can itself be printed:
    it names the character by its escape. *)
Lemma utf8_encode_error_printable (s : pystr) (ex : exn) :
  utf8_encode s = Raised ex -> printable (exc_message ex).
Proof.
  intros Hs. destruct (printable_or_surrogate s) as [Hp | Hex].
  - unfold utf8_encode in Hs. rewrite (utf8_encode_from_clean s Hp 0) in Hs. discriminate.
  - destruct (first_surrogate s Hex) as (pre & c & post & -> & Hpre & Hc).
    unfold utf8_encode in Hs. rewrite (utf8_encode_from_surrogate pre post c Hpre Hc 0) in Hs.
    inversion Hs. apply unicode_encode_error_printable.
Qed.

Lemma stdout_write_printable (s : pystr) : printable s -> stdout_write s = Returned tt.
Proof.
  intros Hs. unfold stdout_write, utf8_encode. now rewrite (utf8_encode_from_clean s Hs 0).
Qed.

Lemma print_lines_printable (lines : list pystr) :
  Forall printable lines -> print_lines lines = (Returned tt, lines).
Proof.
  induction 1 as [|line rest Hl _ IH]; cbn [print_lines]; [reflexivity|].
  now rewrite (stdout_write_printable line Hl), IH.
Qed.

Lemma print_lines_prefix (lines : list pystr) :
  exists rest, lines = snd (print_lines lines) ++ rest.
Proof.
  induction lines as [|line rest [tl IH]]; cbn [print_lines].
  - now exists [].
  - destruct (stdout_write line).
    + destruct (print_lines rest) as [r written]. cbn [snd] in *.
      exists tl. cbn [app]. now rewrite <- IH.
    + now exists (line :: rest).
Qed.

(** ** Running the handlers *)

(** What [accepted_report] returns are the four fields of an object. *)
Lemma accepted_report_inv (request_json : outcome json) (e p o : json) (bs : pybytes) :
  accepted_report request_json = Some (e, p, o, bs) ->
  exists d hs,
    request_json = Returned (JObj d) /\
    d !! py "email" = Some e /\ d !! py "programName" = Some p /\
    d !! py "organizationName" = Some o /\ d !! py "htmlContent" = Some (JStr hs) /\
    truthy e = true /\ truthy p = true /\ truthy o = true /\ truthy (JStr hs) = true /\
    utf8_encode hs = Returned bs.
Proof.
  unfold accepted_report. intros H.
  destruct request_json as [[| | | | | |d]|]; try discriminate.
  destruct (d !! py "email") as [e'|] eqn:He; [|discriminate].
  destruct (d !! py "programName") as [p'|] eqn:Hp; [|discriminate].
  destruct (d !! py "organizationName") as [o'|] eqn:Ho; [|discriminate].
  destruct (d !! py "htmlContent") as [h|] eqn:Hh; [|discriminate].
  destruct (truthy e') eqn:Te; [|discriminate].
  destruct (truthy p') eqn:Tp; [|discriminate].
  destruct (truthy o') eqn:To; [|discriminate].
  destruct (truthy h) eqn:Th; [|discriminate].
  cbn [andb] in H.
  destruct h as [| | | |hs| |]; try discriminate.
  destruct (utf8_encode hs) as [bs'|] eqn:Hbs; [|discriminate].
  inversion H; subst e' p' o' bs'.
  exists d, hs. repeat split; assumption.
Qed.

Lemma accepted_report_intro (d : gmap pystr json) (e p o : json) (hs : pystr) (bs : pybytes) :
  well_formed d e p o hs -> utf8_encode hs = Returned bs ->
  accepted_report (Returned (JObj d)) = Some (e, p, o, bs).
Proof.
  intros (He & Hp & Ho & Hh & Te & Tp & To & Hne) Hbs. unfold accepted_report.
  rewrite He, Hp, Ho, Hh, Te, Tp, To, Hbs.
  destruct hs; [contradiction|reflexivity].
Qed.

(** The validation loop on an object: the first falsy field decides. *)
Lemma check_required_object (d : gmap pystr json) (fields : list pystr) (w : world) :
  check_required (JObj d) fields w =
  (Returned
     (match find (fun f => negb (truthy (default JNull (d !! f)))) fields with
      | Some field =>
          Some (Response
                  (py_dict [(py "error", JStr (py "Missing required field: " ++ field))])
                  400)
      | None => None
      end), w).
Proof.
  induction fields as [|f rest IH]; [reflexivity|].
  cbn [check_required find]. unfold bind, py_get, ret at 1.
  destruct (negb (truthy (default JNull (d !! f)))); [reflexivity|apply IH].
Qed.

Lemma falsy_get (d : gmap pystr json) (f : pystr) :
  missing_or_falsy d f <-> truthy (default JNull (d !! f)) = false.
Proof.
  unfold missing_or_falsy. destruct (d !! f) as [v|] eqn:Hv; cbn [default from_option id].
  - split.
    + intros [? | (v' & Hv' & Hf)]; [discriminate|]. now inversion Hv'; subst.
    + intros Hf. right. now exists v.
  - split; [reflexivity|now left].
Qed.

Lemma truthy_get (d : gmap pystr json) (f : pystr) :
  present_truthy d f <-> truthy (default JNull (d !! f)) = true.
Proof.
  unfold present_truthy. destruct (d !! f) as [v|] eqn:Hv; cbn [default from_option id].
  - split.
    + intros (v' & Hv' & Ht). now inversion Hv'; subst.
    + intros Ht. now exists v.
  - split; [intros (v' & Hv' & _); discriminate|discriminate].
Qed.

(** Among fields of which one is missing or falsy there is a first one,
    and [find] returns it. *)
Lemma first_missing (d : gmap pystr json) (fields : list pystr) :
  Exists (missing_or_falsy d) fields ->
  exists pre field post,
    fields = pre ++ field :: post /\
    Forall (present_truthy d) pre /\
    missing_or_falsy d field /\
    find (fun f => negb (truthy (default JNull (d !! f)))) fields = Some field.
Proof.
  induction fields as [|f rest IH]; intros Hex; [inversion Hex|].
  destruct (truthy (default JNull (d !! f))) eqn:Ht.
  - assert (Hrest : Exists (missing_or_falsy d) rest).
    { inversion Hex as [? ? Hf | ? ? Hr]; subst; [|exact Hr].
      apply falsy_get in Hf. congruence. }
    destruct (IH Hrest) as (pre & field & post & -> & Hpre & Hfield & Hfind).
    exists (f :: pre), field, post. repeat split.
    + constructor; [now apply truthy_get|exact Hpre].
    + exact Hfield.
    + cbn [find]. rewrite Ht. exact Hfind.
  - exists [], f, rest. repeat split.
    + constructor.
    + now apply falsy_get.
    + cbn [find]. now rewrite Ht.
Qed.

Lemma find_none_truthy (d : gmap pystr json) (fields : list pystr) :
  find (fun f => negb (truthy (default JNull (d !! f)))) fields = None <->
  Forall (present_truthy d) fields.
Proof.
  induction fields as [|f rest IH]; cbn [find].
  - split; [constructor|reflexivity].
  - destruct (truthy (default JNull (d !! f))) eqn:Ht; cbn [negb].
    + rewrite IH. split.
      * intros Hrest. constructor; [now apply truthy_get|exact Hrest].
      * intros Hall. now inversion Hall.
    + split; [discriminate|]. intros Hall. inversion Hall as [|? ? Hf _]; subst.
      apply truthy_get in Hf. congruence.
Qed.

Lemma find_some_missing (d : gmap pystr json) (fields : list pystr) (field : pystr) :
  find (fun f => negb (truthy (default JNull (d !! f)))) fields = Some field ->
  Exists (missing_or_falsy d) fields.
Proof.
  intros Hfind. apply find_some in Hfind as [Hin Hf].
  apply Exists_exists. exists field. split; [now apply list_elem_of_In|].
  apply falsy_get. now apply negb_true_iff.
Qed.

(** The four fields of an object that passes the validation. *)
Lemma validated_fields (d : gmap pystr json) :
  Forall (present_truthy d) required_fields ->
  exists e p o h,
    d !! py "email" = Some e /\ d !! py "programName" = Some p /\
    d !! py "organizationName" = Some o /\ d !! py "htmlContent" = Some h /\
    truthy e = true /\ truthy p = true /\ truthy o = true /\ truthy h = true.
Proof.
  unfold required_fields. intros Hall.
  inversion Hall as [|? ? (e & He & Te) H1]; subst.
  inversion H1 as [|? ? (p & Hp & Tp) H2]; subst.
  inversion H2 as [|? ? (o & Ho & To) H3]; subst.
  inversion H3 as [|? ? (h & Hh & Th) _]; subst.
  exists e, p, o, h. repeat split; assumption.
Qed.

Lemma send_report_missing (E : env) (d : gmap pystr json) (w : world) (field : pystr) :
  find (fun f => negb (truthy (default JNull (d !! f)))) required_fields = Some field ->
  send_report E (Returned (JObj d)) w =
  (Returned
     (Response (py_dict [(py "error", JStr (py "Missing required field: " ++ field))]) 400),
   w).
Proof.
  intros Hfind. unfold send_report, try_except, send_report_try, bind at 1, lift.
  unfold bind at 1. rewrite check_required_object, Hfind. reflexivity.
Qed.

(** The [except] clause: it answers 500 after printing the error, unless
    the print itself raises. *)
Lemma except_clause_run (ex : exn) (w : world) :
  except_clause ex w =
  match utf8_encode (error_line ex) with
  | Returned _ =>
      (Returned (failure_response ex),
       World (ticks w) (stdout w ++ [error_line ex]) (outbox w))
  | Raised ex' => (Raised ex', w)
  end.
Proof.
  unfold except_clause, bind, print, stdout_write, ret.
  destruct (utf8_encode (error_line ex)); reflexivity.
Qed.

Lemma error_line_printable (ex : exn) : printable (exc_message ex) -> printable (error_line ex).
Proof. intros Hex. unfold error_line. apply printable_app; [apply py_printable|exact Hex]. Qed.

Lemma except_clause_printable (ex : exn) (w : world) :
  printable (exc_message ex) ->
  except_clause ex w =
  (Returned (failure_response ex),
   World (ticks w) (stdout w ++ [error_line ex]) (outbox w)).
Proof.
  intros Hex. rewrite except_clause_run. unfold utf8_encode.
  now rewrite (utf8_encode_from_clean _ (error_line_printable ex Hex) 0).
Qed.

Lemma except_clause_returned (ex : exn) (w w' : world) (resp : response) :
  except_clause ex w = (Returned resp, w') ->
  resp = failure_response ex /\
  w' = World (ticks w) (stdout w ++ [error_line ex]) (outbox w).
Proof.
  rewrite except_clause_run. destruct (utf8_encode (error_line ex)); intros H.
  - now inversion H.
  - discriminate.
Qed.

Lemma except_clause_effects (ex : exn) (w : world) :
  exists printed,
    outbox (snd (except_clause ex w)) = outbox w /\
    stdout (snd (except_clause ex w)) = stdout w ++ printed /\
    ticks (snd (except_clause ex w)) = ticks w.
Proof.
  rewrite except_clause_run. destruct (utf8_encode (error_line ex)); cbn [snd outbox stdout ticks].
  - eexists. now repeat split.
  - exists []. now rewrite app_nil_r.
Qed.

(** The run of [send_report] on every request. *)
Lemma send_report_run (E : env) (request_json : outcome json) (w : world) :
  send_report E request_json w =
  match classify request_json with
  | Unreadable ex => except_clause ex w
  | MissingField field => (Returned (missing_response field), w)
  | BadDocument ex => except_clause ex (World (S (ticks w)) (stdout w) (outbox w))
  | Accepted e p o bs =>
      let msg := report_message e p o (clock E (ticks w)) bs in
      match send_email E msg (World (S (ticks w)) (stdout w) (outbox w)) with
      | (Returned _, lines) =>
          (Returned (success_response e (clock E (S (ticks w)))),
           World (S (S (ticks w))) (stdout w ++ lines) (outbox w ++ [msg]))
      | (Raised ex, lines) =>
          except_clause ex (World (S (ticks w)) (stdout w ++ lines) (outbox w ++ [msg]))
      end
  end.
Proof.
  destruct request_json as [v|ex]; [|reflexivity].
  destruct v as [| | | | | |d]; try reflexivity.
  unfold classify.
  destruct (find (fun f => negb (truthy (default JNull (d !! f)))) required_fields)
    as [field|] eqn:Hfind.
  { unfold missing_response. apply send_report_missing, Hfind. }
  apply find_none_truthy, validated_fields in Hfind.
  destruct Hfind as (e & p & o & h & He & Hp & Ho & Hh & Te & Tp & To & Th).
  unfold except_clause, error_line, failure_response.
  run_handler. rewrite He, Hp, Ho, Hh. run_handler. rewrite Te, Tp, To, Th. run_handler.
  destruct h as [| | | |hs| |]; try reflexivity.
  destruct (utf8_encode hs) as [bs|ex] eqn:Hbs; [|reflexivity].
  rewrite bytes_decode_b64encode. run_handler. unfold report_message.
  destruct (send_email E _ _) as [[v|ex] lines]; reflexivity.
Qed.

Lemma classify_accepted_inv (request_json : outcome json) (e p o : json) (bs : pybytes) :
  classify request_json = Accepted e p o bs ->
  exists d hs,
    request_json = Returned (JObj d) /\ well_formed d e p o hs /\
    utf8_encode hs = Returned bs.
Proof.
  unfold classify. intros H.
  destruct request_json as [[| | | | | |d]|]; try discriminate.
  destruct (find _ required_fields) as [field|] eqn:Hfind; [discriminate|].
  apply find_none_truthy, validated_fields in Hfind.
  destruct Hfind as (e' & p' & o' & h & He & Hp & Ho & Hh & Te & Tp & To & Th).
  rewrite He, Hp, Ho, Hh in H. cbn [default from_option id] in H.
  destruct h as [| | | |hs| |]; try discriminate.
  destruct (utf8_encode hs) as [bs'|] eqn:Hbs; [|discriminate].
  inversion H; subst. exists d, hs. split; [reflexivity|]. split; [|exact Hbs].
  repeat split; try assumption. intros ->. discriminate.
Qed.

Lemma classify_accepted_intro (d : gmap pystr json) (e p o : json) (hs : pystr)
    (bs : pybytes) :
  well_formed d e p o hs -> utf8_encode hs = Returned bs ->
  classify (Returned (JObj d)) = Accepted e p o bs.
Proof.
  intros (He & Hp & Ho & Hh & Te & Tp & To & Hne) Hbs. unfold classify.
  assert (Hall : Forall (present_truthy d) required_fields).
  { unfold required_fields. repeat constructor; eexists; split; try eassumption.
    destruct hs; [contradiction|reflexivity]. }
  apply find_none_truthy in Hall. rewrite Hall, He, Hp, Ho, Hh.
  cbn [default from_option id]. now rewrite Hbs.
Qed.

Lemma classify_missing_inv (request_json : outcome json) (field : pystr) :
  classify request_json = MissingField field ->
  exists d, request_json = Returned (JObj d) /\
            Exists (missing_or_falsy d) required_fields.
Proof.
  unfold classify. intros H.
  destruct request_json as [[| | | | | |d]|]; try discriminate.
  destruct (find _ required_fields) as [f|] eqn:Hfind.
  - exists d. split; [reflexivity|]. eapply find_some_missing, Hfind.
  - destruct (default JNull (d !! py "htmlContent")); try discriminate.
    destruct (utf8_encode s); discriminate.
Qed.

Lemma classify_unreadable_inv (request_json : outcome json) (ex : exn) :
  classify request_json = Unreadable ex ->
  request_json = Raised ex \/
  exists v, request_json = Returned v /\ is_object request_json = false /\
            ex = attribute_error v "get".
Proof.
  unfold classify. intros H.
  destruct request_json as [v|ex']; [|left; congruence].
  right. exists v.
  destruct v as [| | | | | |d]; try (inversion H; now repeat split).
  destruct (find _ required_fields); [discriminate|].
  destruct (default JNull (d !! py "htmlContent")); try discriminate.
  destruct (utf8_encode s); discriminate.
Qed.

Lemma classify_bad_document_inv (request_json : outcome json) (ex : exn) :
  classify request_json = BadDocument ex ->
  exists d h,
    request_json = Returned (JObj d) /\
    Forall (present_truthy d) required_fields /\
    d !! py "htmlContent" = Some h /\
    (((forall hs, h <> JStr hs) /\ ex = attribute_error h "encode") \/
     exists hs, h = JStr hs /\ utf8_encode hs = Raised ex).
Proof.
  unfold classify. intros H.
  destruct request_json as [[| | | | | |d]|]; try discriminate.
  destruct (find _ required_fields) as [f|] eqn:Hfind; [discriminate|].
  apply find_none_truthy in Hfind.
  destruct (validated_fields d Hfind) as (e & p & o & h & He & Hp & Ho & Hh & _).
  rewrite Hh in H. cbn [default from_option id] in H.
  exists d, h. split; [reflexivity|]. split; [exact Hfind|]. split; [exact Hh|].
  destruct h as [| | | |hs| |];
    try (left; split; [intros hs; discriminate|now inversion H]).
  right. exists hs. split; [reflexivity|].
  destruct (utf8_encode hs); [discriminate|now inversion H].
Qed.

(** The exception of a document that cannot be sent has a text that can
    be printed. *)
Lemma bad_document_printable (request_json : outcome json) (ex : exn) :
  classify request_json = BadDocument ex -> printable (exc_message ex).
Proof.
  intros Hc.
  destruct (classify_bad_document_inv _ _ Hc) as (d & h & _ & _ & _ & [[_ ->] | (hs & _ & H)]).
  - apply attribute_error_printable.
  - eapply utf8_encode_error_printable, H.
Qed.

Lemma accepted_report_classify (request_json : outcome json) :
  accepted_report request_json =
  match classify request_json with
  | Accepted e p o bs => Some (e, p, o, bs)
  | _ => None
  end.
Proof.
  destruct (classify request_json) as [ex|field|ex|e p o bs] eqn:Hc.
  - destruct (accepted_report request_json) as [[[[e p] o] bs]|] eqn:Ha; [|reflexivity].
    destruct (accepted_report_inv _ _ _ _ _ Ha)
      as (d & hs & -> & He & Hp & Ho & Hh & Te & Tp & To & Th & Hbs).
    rewrite (classify_accepted_intro d e p o hs bs) in Hc; [discriminate| |exact Hbs].
    repeat split; try assumption. intros ->. discriminate.
  - destruct (accepted_report request_json) as [[[[e p] o] bs]|] eqn:Ha; [|reflexivity].
    destruct (accepted_report_inv _ _ _ _ _ Ha)
      as (d & hs & -> & He & Hp & Ho & Hh & Te & Tp & To & Th & Hbs).
    rewrite (classify_accepted_intro d e p o hs bs) in Hc; [discriminate| |exact Hbs].
    repeat split; try assumption. intros ->. discriminate.
  - destruct (accepted_report request_json) as [[[[e p] o] bs]|] eqn:Ha; [|reflexivity].
    destruct (accepted_report_inv _ _ _ _ _ Ha)
      as (d & hs & -> & He & Hp & Ho & Hh & Te & Tp & To & Th & Hbs).
    rewrite (classify_accepted_intro d e p o hs bs) in Hc; [discriminate| |exact Hbs].
    repeat split; try assumption. intros ->. discriminate.
  - destruct (classify_accepted_inv _ _ _ _ _ Hc) as (d & hs & -> & Hwf & Hbs).
    apply (accepted_report_intro d e p o hs bs Hwf Hbs).
Qed.

(** The messages a run of [send_report] adds to the outbox. *)
Lemma send_report_outbox (E : env) (request_json : outcome json) (w : world) :
  outbox (snd (send_report E request_json w)) =
  outbox w ++
  match accepted_report request_json with
  | Some (e, p, o, bs) => [report_message e p o (clock E (ticks w)) bs]
  | None => []
  end.
Proof.
  rewrite send_report_run, accepted_report_classify.
  destruct (classify request_json) as [ex|field|ex|e p o bs]; cbv zeta.
  - destruct (except_clause_effects ex w) as (printed & -> & _). now rewrite app_nil_r.
  - now rewrite app_nil_r.
  - destruct (except_clause_effects ex (World (S (ticks w)) (stdout w) (outbox w)))
      as (printed & -> & _). cbn [outbox]. now rewrite app_nil_r.
  - destruct (send_email E _ _) as [[v|ex] lines]; [reflexivity|].
    destruct (except_clause_effects ex
                (World (S (ticks w)) (stdout w ++ lines)
                   (outbox w ++ [report_message e p o (clock E (ticks w)) bs])))
      as (printed & -> & _). reflexivity.
Qed.

(** ** Formats *)

Lemma strftime_report_format (t : datetime) :
  strftime t "%B %d, %Y at %I:%M %p %Z" = spec_timestamp t ++ py " ".
Proof.
  unfold strftime, spec_timestamp.
  cbv [list_ascii_of_string strftime_chars strftime_directive].
  rewrite <- !app_assoc. reflexivity.
Qed.

Lemma allowed_keep (c : codepoint) :
  allowed_in_filename c <-> isalnum c || in_punctuation c = true.
Proof.
  unfold allowed_in_filename, in_punctuation. cbn [py list_ascii_of_string map existsb].
  change (N_of_ascii ".") with 46. change (N_of_ascii "_") with 95.
  change (N_of_ascii "-") with 45.
  rewrite !orb_true_iff, !N.eqb_eq. intuition discriminate.
Qed.

Lemma filter_dropped (s : pystr) :
  dropped s (List.filter (fun c => isalnum c || in_punctuation c) s).
Proof.
  induction s as [|c s IH]; cbn [List.filter]; [constructor|].
  destruct (isalnum c || in_punctuation c) eqn:Hc.
  - apply dropped_keep; [now apply allowed_keep|exact IH].
  - apply dropped_drop; [|exact IH]. rewrite allowed_keep, Hc. discriminate.
Qed.

Lemma filter_allowed (s : pystr) :
  Forall allowed_in_filename (List.filter (fun c => isalnum c || in_punctuation c) s).
Proof.
  apply Forall_forall. intros c Hin. apply list_elem_of_In, filter_In in Hin.
  apply allowed_keep, Hin.
Qed.

(** ** The properties of the specification *)

(** C1 (as amended). For every well-formed request whose document has a
    UTF-8 encoding [bs] (it contains no surrogate code point), if the
    call of the mail capability returns normally then the
    response status is 200, the capability has been called exactly once,
    with one attachment, and base64-decoding the attachment's content
    gives [bs] back; [bs] in turn decodes, as UTF-8, to the document. *)
Theorem send_report_delivers_roundtrip (E : env) (d : gmap pystr json) (w : world)
    (e p o : json) (hs : pystr) (bs : pybytes) (v : json) (lines : list pystr) :
  well_formed d e p o hs -> utf8_encode hs = Returned bs ->
  send_email E (report_message e p o (clock E (ticks w)) bs)
    (World (S (ticks w)) (stdout w) (outbox w)) = (Returned v, lines) ->
  exists resp w' msg a,
    send_report E (Returned (JObj d)) w = (Returned resp, w') /\
    status resp = 200 /\
    outbox w' = outbox w ++ [msg] /\
    msg = report_message e p o (clock E (ticks w)) bs /\
    attachments msg = [a] /\
    b64decode (content a) = Some bs /\
    (Forall (fun c => is_codepoint c = true) hs -> utf8_decode bs = Some hs).
Proof.
  intros Hwf Hbs Hmail.
  rewrite send_report_run, (classify_accepted_intro d e p o hs bs Hwf Hbs).
  cbv zeta. rewrite Hmail.
  eexists _, _, _, _. split; [reflexivity|].
  split; [reflexivity|]. split; [reflexivity|]. split; [reflexivity|].
  split; [reflexivity|]. cbn [content]. split.
  - apply b64decode_encode, (utf8_encode_bytes hs), Hbs.
  - intros Hcp. now apply utf8_decode_encode.
Qed.

(** C2. For every JSON object in which one of the four required fields is
    missing or falsy, there is a first such field in the order [email],
    [programName], [organizationName], [htmlContent], and the response is
    400 with the body [{"error": "Missing required field: <field>"}]. *)
Theorem missing_field_rejected_400 (E : env) (d : gmap pystr json) (w : world) :
  Exists (missing_or_falsy d) required_fields ->
  exists pre field post,
    required_fields = pre ++ field :: post /\
    Forall (present_truthy d) pre /\
    missing_or_falsy d field /\
    send_report E (Returned (JObj d)) w =
    (Returned
       (Response (py_dict [(py "error", JStr (py "Missing required field: " ++ field))]) 400),
     w).
Proof.
  intros Hex.
  destruct (first_missing d required_fields Hex) as (pre & field & post & Hsplit & Hpre & Hf & Hfind).
  exists pre, field, post. repeat split; try assumption.
  apply send_report_missing, Hfind.
Qed.

(** C3. A request that fails the validation of its fields is answered with
    400 and leaves the world as it was: nothing is added to the outbox, and
    the answer is the same whatever the mail capability would do. *)
Theorem missing_field_never_sends (E : env) (d : gmap pystr json) (w : world) :
  Exists (missing_or_falsy d) required_fields ->
  exists resp,
    send_report E (Returned (JObj d)) w = (Returned resp, w) /\
    status resp = 400 /\
    outbox (snd (send_report E (Returned (JObj d)) w)) = outbox w /\
    forall E', send_report E' (Returned (JObj d)) w = (Returned resp, w).
Proof.
  intros Hex.
  destruct (first_missing d required_fields Hex) as (pre & field & post & _ & _ & _ & Hfind).
  eexists. rewrite (send_report_missing E d w field Hfind).
  split; [reflexivity|]. split; [reflexivity|]. split; [reflexivity|].
  intros E'. apply send_report_missing, Hfind.
Qed.

(** X20. For every well-formed request on which the mail capability
    raises an exception [ex] whose text standard output can encode, the
    response is 500 with the body
    [{"error": "Failed to send email: " ++ str(ex)}]; the capability has
    been called once and the error is printed. When [str(ex)] is
    ["SMTP timeout"] the body is
    [{"error": "Failed to send email: SMTP timeout"}]. *)
Theorem mailer_exception_gives_500 (E : env) (d : gmap pystr json) (w : world)
    (e p o : json) (hs : pystr) (bs : pybytes) (ex : exn) (lines : list pystr) :
  well_formed d e p o hs -> utf8_encode hs = Returned bs ->
  send_email E (report_message e p o (clock E (ticks w)) bs)
    (World (S (ticks w)) (stdout w) (outbox w)) = (Raised ex, lines) ->
  printable (exc_message ex) ->
  exists resp w',
    send_report E (Returned (JObj d)) w = (Returned resp, w') /\
    resp = Response
             (py_dict [(py "error", JStr (py "Failed to send email: " ++ exc_message ex))])
             500 /\
    outbox w' = outbox w ++ [report_message e p o (clock E (ticks w)) bs] /\
    stdout w' = (stdout w ++ lines) ++ [py "Error sending email: " ++ exc_message ex] /\
    (exc_message ex = py "SMTP timeout" ->
     resp = Response
              (py_dict [(py "error", JStr (py "Failed to send email: SMTP timeout"))])
              500).
Proof.
  intros Hwf Hbs Hmail Hprint.
  rewrite send_report_run, (classify_accepted_intro d e p o hs bs Hwf Hbs).
  cbv zeta. rewrite Hmail, (except_clause_printable ex _ Hprint).
  eexists _, _. split; [reflexivity|].
  split; [reflexivity|]. split; [reflexivity|]. split; [reflexivity|].
  intros Hm. unfold failure_response. now rewrite Hm.
Qed.

(** C5. For every well-formed request the message handed to the mail
    capability has one attachment, whose name is the string
    ["{organizationName}_{programName}_Evaluation_Plan.html"] with every
    character removed that is neither alphanumeric nor one of [.], [_],
    [-]; for ["Acme Corp!"] and ["Youth/2024"] the name is
    ["AcmeCorp_Youth2024_Evaluation_Plan.html"]. *)
Theorem attachment_filename_sanitized (E : env) (d : gmap pystr json) (w : world)
    (e p o : json) (hs : pystr) (bs : pybytes) :
  well_formed d e p o hs -> utf8_encode hs = Returned bs ->
  exists msg a,
    outbox (snd (send_report E (Returned (JObj d)) w)) = outbox w ++ [msg] /\
    attachments msg = [a] /\
    dropped (format_value o ++ py "_" ++ format_value p ++ py "_Evaluation_Plan.html")
      (filename a) /\
    Forall allowed_in_filename (filename a) /\
    (o = JStr (py "Acme Corp!") -> p = JStr (py "Youth/2024") ->
     filename a = py "AcmeCorp_Youth2024_Evaluation_Plan.html").
Proof.
  intros Hwf Hbs.
  pose proof (accepted_report_intro d e p o hs bs Hwf Hbs) as Hacc.
  rewrite send_report_outbox, Hacc.
  eexists _, _. split; [reflexivity|]. split; [reflexivity|].
  cbn [filename]. unfold make_filename. cbv zeta.
  split; [apply filter_dropped|]. split; [apply filter_allowed|].
  intros -> ->. reflexivity.
Qed.

(** X21. What the handler sends as text: the fixed template with
    [programName], [organizationName] and the time stamp
    [Month Day, Year at HH:MM AM/PM] of the clock reading, and after it
    the blank that the format, which ends in [" %Z"], leaves when [%Z] is
    empty, as it is for the naive local time the handler reads. *)
Lemma email_body_timestamp_format (E : env) (d : gmap pystr json) (w : world)
    (e p o : json) (hs : pystr) (bs : pybytes) :
  well_formed d e p o hs -> utf8_encode hs = Returned bs ->
  exists msg,
    outbox (snd (send_report E (Returned (JObj d)) w)) = outbox w ++ [msg] /\
    text msg =
    email_body (format_value p) (format_value o)
      (spec_timestamp (clock E (ticks w)) ++ py " ").
Proof.
  intros Hwf Hbs.
  pose proof (accepted_report_intro d e p o hs bs Hwf Hbs) as Hacc.
  rewrite send_report_outbox, Hacc.
  eexists. split; [reflexivity|].
  cbn [text report_message]. now rewrite strftime_report_format.
Qed.

(** C7. After any sequence of earlier requests, whatever they were and
    however they ended, [GET /health] returns status 200 and the body
    [{"status": "healthy", "timestamp": now}], with [now] the clock
    reading in ISO 8601 form; it never raises, prints nothing, sends
    nothing, and answers the same whatever the mail capability is. *)
Theorem health_check_always_healthy (E : env) (earlier : list http_request) (w : world) :
  let w1 := snd (serve_all E earlier w) in
  serve E GET_health w1 =
  (Returned
     (Response
        (py_dict [(py "status", JStr (py "healthy"));
                  (py "timestamp", JStr (isoformat (clock E (ticks w1))))])
        200),
   World (S (ticks w1)) (stdout w1) (outbox w1)) /\
  (forall mailer,
     serve (Env (clock E) mailer) GET_health w1 = serve E GET_health w1).
Proof.
  intros w1. split.
  - reflexivity.
  - intros mailer. reflexivity.
Qed.

(** C8. The messages a request hands to the mail capability depend only on
    the request and on the clock reading: two runs on the same request,
    in any two environments and worlds whose clocks read the same time,
    send the same messages, and for a well-formed request that message
    is [report_message] of the fields and the time. *)
Theorem email_message_deterministic (E1 E2 : env) (request_json : outcome json)
    (w1 w2 : world) :
  clock E1 (ticks w1) = clock E2 (ticks w2) ->
  exists sent,
    outbox (snd (send_report E1 request_json w1)) = outbox w1 ++ sent /\
    outbox (snd (send_report E2 request_json w2)) = outbox w2 ++ sent /\
    sent = match accepted_report request_json with
           | Some (e, p, o, bs) => [report_message e p o (clock E1 (ticks w1)) bs]
           | None => []
           end.
Proof.
  intros Hclock. eexists. split; [apply send_report_outbox|].
  split; [|reflexivity]. rewrite send_report_outbox, Hclock. reflexivity.
Qed.

(** C9. When [request.get_json()] raises, or returns something that is not
    an object ([None] included), the response is 500 with the body
    [{"error": "Failed to send email: ..."}], the text being that of the
    exception, and no field is checked. The text of the [AttributeError]
    of a value without [.get] can always be printed; an exception of
    [get_json] is taken to have a text standard output can encode, as
    those of the framework have. *)
Theorem unreadable_body_gives_500 (E : env) (request_json : outcome json) (w : world) :
  is_object request_json = false ->
  (forall ex, request_json = Raised ex -> printable (exc_message ex)) ->
  send_report E request_json w =
  (Returned
     (Response
        (py_dict [(py "error",
                   JStr (py "Failed to send email: " ++ unreadable_message request_json))])
        500),
   World (ticks w)
     (stdout w ++ [py "Error sending email: " ++ unreadable_message request_json])
     (outbox w)).
Proof.
  intros Hobj Hprint. rewrite send_report_run.
  destruct request_json as [v|ex].
  - destruct v as [| | | | | |d]; try discriminate;
      cbn [classify unreadable_message];
      apply except_clause_printable, attribute_error_printable.
  - cbn [classify unreadable_message]. apply except_clause_printable, Hprint. reflexivity.
Qed.

(** C10. Whenever [POST /send-report] answers 200, the request is an object
    with an [email] field, and the [message] of the body is
    ["Email sent successfully to "] followed by that field as submitted. *)
Theorem success_message_echoes_email (E : env) (request_json : outcome json)
    (w w' : world) (resp : response) :
  send_report E request_json w = (Returned resp, w') ->
  status resp = 200 ->
  exists d e fields,
    request_json = Returned (JObj d) /\
    d !! py "email" = Some e /\
    body resp = JObj fields /\
    fields !! py "message" =
      Some (JStr (py "Email sent successfully to " ++ format_value e)) /\
    forall s, e = JStr s ->
      fields !! py "message" = Some (JStr (py "Email sent successfully to " ++ s)).
Proof.
  intros Hrun Hstatus. rewrite send_report_run in Hrun.
  assert (Hfail : forall ex w0, except_clause ex w0 = (Returned resp, w') -> False).
  { intros ex w0 H. apply except_clause_returned in H as [-> _]. discriminate. }
  destruct (classify request_json) as [ex|field|ex|e p o bs] eqn:Hc; cbv zeta in Hrun.
  - now elim (Hfail _ _ Hrun).
  - inversion Hrun; subst. discriminate.
  - now elim (Hfail _ _ Hrun).
  - destruct (classify_accepted_inv _ _ _ _ _ Hc) as (d & hs & -> & (He & _) & _).
    destruct (send_email E _ _) as [[v|ex] lines]; [|now elim (Hfail _ _ Hrun)].
    inversion Hrun; subst resp w'. eexists d, e, _. split; [reflexivity|].
    split; [exact He|]. split; [reflexivity|].
    assert (Hm : forall x y z : json,
               (<[py "timestamp" := z]> (<[py "message" := y]>
                  (<[py "success" := x]> (∅ : gmap pystr json)))) !! py "message" = Some y).
    { intros x y z. rewrite lookup_insert_ne by discriminate. apply lookup_insert_eq. }
    split; [apply Hm|]. intros s ->. apply Hm.
Qed.


(** ** Further properties of the handlers *)

(** X1. [send_report] answers every request with 200 and the body
    [{success, message, timestamp}], or with 400 or 500 and a body that
    has the single field [error], with one exception: when the [except]
    clause cannot print the text of the exception it caught, the
    [UnicodeEncodeError] of that [print] leaves the handler. The exception
    caught is then one of [get_json] or of the mail capability. *)
Theorem send_report_response_shape (E : env) (request_json : outcome json) (w : world) :
  (exists resp w',
     send_report E request_json w = (Returned resp, w') /\
     ((exists e t, resp = success_response e t) \/
      (exists m, (status resp = 400 \/ status resp = 500) /\
                 body resp = py_dict [(py "error", JStr m)]))) \/
  (exists ex ex' w',
     send_report E request_json w = (Raised ex', w') /\
     utf8_encode (error_line ex) = Raised ex' /\
     (request_json = Raised ex \/
      exists msg w0 lines, send_email E msg w0 = (Raised ex, lines))).
Proof.
  assert (Hshape : forall ex w0 bs,
            utf8_encode (error_line ex) = Returned bs ->
            exists resp w',
              except_clause ex w0 = (Returned resp, w') /\
              ((exists e t, resp = success_response e t) \/
               (exists m, (status resp = 400 \/ status resp = 500) /\
                          body resp = py_dict [(py "error", JStr m)]))).
  { intros ex w0 bs Henc. rewrite except_clause_run, Henc.
    eexists _, _. split; [reflexivity|]. right. eexists. split; [now right|reflexivity]. }
  assert (Hclean : forall ex, printable (exc_message ex) ->
            exists bs, utf8_encode (error_line ex) = Returned bs).
  { intros ex Hp. apply error_line_printable in Hp. unfold utf8_encode.
    rewrite (utf8_encode_from_clean _ Hp 0). eauto. }
  rewrite send_report_run.
  destruct (classify request_json) as [ex|field|ex|e p o bs] eqn:Hc; cbv zeta.
  - destruct (utf8_encode (error_line ex)) as [bs|x] eqn:Henc.
    + left. eapply Hshape, Henc.
    + destruct (classify_unreadable_inv _ _ Hc) as [-> | (v & _ & _ & ->)].
      * right. exists ex, x, w. rewrite except_clause_run, Henc.
        split; [reflexivity|]. split; [reflexivity|now left].
      * destruct (Hclean _ (attribute_error_printable v "get")) as (bs & Hbs).
        rewrite Hbs in Henc. discriminate.
  - left. eexists _, _. split; [reflexivity|]. right. eexists. split; [now left|reflexivity].
  - destruct (Hclean _ (bad_document_printable _ _ Hc)) as (bs & Hbs).
    left. eapply Hshape, Hbs.
  - destruct (send_email E _ _) as [[v|ex] lines] eqn:Hmail.
    + left. eexists _, _. split; [reflexivity|]. left. eauto.
    + destruct (utf8_encode (error_line ex)) as [bs'|x] eqn:Henc.
      * left. eapply Hshape, Henc.
      * right. exists ex, x. eexists. rewrite except_clause_run, Henc.
        split; [reflexivity|]. split; [reflexivity|]. right. eauto.
Qed.

(** X2. The answer is 400 exactly when the body is a JSON object in which
    one of the four required fields is missing or falsy. *)
Theorem status_400_iff_field_missing (E : env) (request_json : outcome json) (w : world) :
  (exists resp w', send_report E request_json w = (Returned resp, w') /\ status resp = 400)
  <->
  (exists d, request_json = Returned (JObj d) /\
             Exists (missing_or_falsy d) required_fields).
Proof.
  split.
  - intros (resp & w' & Hrun & Hstatus). rewrite send_report_run in Hrun.
    assert (Hfail : forall ex w0, except_clause ex w0 = (Returned resp, w') -> False).
    { intros ex w0 H. apply except_clause_returned in H as [-> _]. discriminate. }
    destruct (classify request_json) as [ex|field|ex|e p o bs] eqn:Hc; cbv zeta in Hrun.
    + now elim (Hfail _ _ Hrun).
    + eapply classify_missing_inv, Hc.
    + now elim (Hfail _ _ Hrun).
    + destruct (send_email E _ _) as [[v|ex] lines]; [|now elim (Hfail _ _ Hrun)].
      inversion Hrun; subst; discriminate.
  - intros (d & -> & Hex).
    destruct (first_missing d required_fields Hex) as (pre & field & post & _ & _ & _ & Hfind).
    rewrite (send_report_missing E d w field Hfind). eexists _, _. split; reflexivity.
Qed.

(** X3. The answer is 200 exactly when the request is well formed, its
    document has a UTF-8 encoding, and the call of the mail capability
    returns; the value the call returns plays no part. *)
Theorem status_200_iff_delivered (E : env) (request_json : outcome json) (w : world) :
  (exists resp w', send_report E request_json w = (Returned resp, w') /\ status resp = 200)
  <->
  (exists d e p o hs bs v lines,
     request_json = Returned (JObj d) /\ well_formed d e p o hs /\
     utf8_encode hs = Returned bs /\
     send_email E (report_message e p o (clock E (ticks w)) bs)
       (World (S (ticks w)) (stdout w) (outbox w)) = (Returned v, lines)).
Proof.
  split.
  - intros (resp & w' & Hrun & Hstatus). rewrite send_report_run in Hrun.
    assert (Hfail : forall ex w0, except_clause ex w0 = (Returned resp, w') -> False).
    { intros ex w0 H. apply except_clause_returned in H as [-> _]. discriminate. }
    destruct (classify request_json) as [ex|field|ex|e p o bs] eqn:Hc; cbv zeta in Hrun;
      try (now elim (Hfail _ _ Hrun)); try (inversion Hrun; subst; discriminate).
    destruct (classify_accepted_inv _ _ _ _ _ Hc) as (d & hs & -> & Hwf & Hbs).
    destruct (send_email E _ _) as [[v|ex] lines] eqn:Hmail.
    + exists d, e, p, o, hs, bs, v, lines.
      split; [reflexivity|]. split; [exact Hwf|]. split; [exact Hbs|exact Hmail].
    + now elim (Hfail _ _ Hrun).
  - intros (d & e & p & o & hs & bs & v & lines & -> & Hwf & Hbs & Hmail).
    rewrite send_report_run, (classify_accepted_intro d e p o hs bs Hwf Hbs).
    cbv zeta. rewrite Hmail. eexists _, _. split; reflexivity.
Qed.

(** X4. An answer of 500 has one of five causes, and the text after
    ["Failed to send email: "] is [str(e)] of the exception: [get_json]
    raised; the body is not an object; the document is not a string; the
    document has no UTF-8 encoding; the mail capability raised. The same
    text is the last line printed. *)
Theorem status_500_causes (E : env) (request_json : outcome json) (w w' : world)
    (resp : response) :
  send_report E request_json w = (Returned resp, w') ->
  status resp = 500 ->
  exists ex,
    resp = failure_response ex /\
    last (stdout w') = Some (error_line ex) /\
    (request_json = Raised ex \/
     (exists v, request_json = Returned v /\ is_object request_json = false /\
                ex = attribute_error v "get") \/
     (exists d h, request_json = Returned (JObj d) /\
                  Forall (present_truthy d) required_fields /\
                  d !! py "htmlContent" = Some h /\
                  (forall hs, h <> JStr hs) /\ ex = attribute_error h "encode") \/
     (exists d hs, request_json = Returned (JObj d) /\
                   Forall (present_truthy d) required_fields /\
                   d !! py "htmlContent" = Some (JStr hs) /\
                   utf8_encode hs = Raised ex) \/
     (exists d e p o hs bs lines,
        request_json = Returned (JObj d) /\ well_formed d e p o hs /\
        utf8_encode hs = Returned bs /\
        send_email E (report_message e p o (clock E (ticks w)) bs)
          (World (S (ticks w)) (stdout w) (outbox w)) = (Raised ex, lines))).
Proof.
  intros Hrun Hstatus. rewrite send_report_run in Hrun.
  destruct (classify request_json) as [ex|field|ex|e p o bs] eqn:Hc; cbv zeta in Hrun.
  - apply except_clause_returned in Hrun as [-> ->]. exists ex. split; [reflexivity|].
    split; [cbn [stdout]; apply last_snoc|].
    destruct (classify_unreadable_inv _ _ Hc) as [Hr | Hv]; [now left|right; now left].
  - inversion Hrun; subst. discriminate.
  - apply except_clause_returned in Hrun as [-> ->]. exists ex. split; [reflexivity|].
    split; [cbn [stdout]; apply last_snoc|].
    destruct (classify_bad_document_inv _ _ Hc)
      as (d & h & -> & Hall & Hh & [[Hns ->] | (hs & -> & Henc)]).
    + right; right; left. exists d, h. now repeat split.
    + right; right; right; left. exists d, hs. now repeat split.
  - destruct (classify_accepted_inv _ _ _ _ _ Hc) as (d & hs & -> & Hwf & Hbs).
    destruct (send_email E _ _) as [[v|ex] lines] eqn:Hmail.
    + inversion Hrun; subst. discriminate.
    + apply except_clause_returned in Hrun as [-> ->]. exists ex. split; [reflexivity|].
      split; [cbn [stdout]; apply last_snoc|].
      right; right; right; right. exists d, e, p, o, hs, bs, lines.
      split; [reflexivity|]. split; [exact Hwf|]. split; [exact Hbs|exact Hmail].
Qed.

(** X5. A document that is truthy but not a string (a number, [true], a
    list, an object) passes the validation and then fails at [.encode]:
    the answer is 500 with the [AttributeError] text, after one reading of
    the clock, and the mail capability is not called. *)
Theorem non_string_document_answers_500 (E : env) (d : gmap pystr json) (w : world)
    (h : json) :
  Forall (present_truthy d) required_fields ->
  d !! py "htmlContent" = Some h ->
  (forall hs, h <> JStr hs) ->
  send_report E (Returned (JObj d)) w =
  (Returned
     (Response
        (py_dict [(py "error",
                   JStr (py "Failed to send email: '" ++ py (type_name h) ++
                         py "' object has no attribute 'encode'"))])
        500),
   World (S (ticks w))
     (stdout w ++ [py "Error sending email: '" ++ py (type_name h) ++
                   py "' object has no attribute 'encode'"])
     (outbox w)).
Proof.
  intros Hall Hh Hns. rewrite send_report_run. unfold classify.
  apply find_none_truthy in Hall. rewrite Hall, Hh. cbn [default from_option id].
  destruct h as [| | | |hs| |]; try (now elim (Hns hs));
    (rewrite except_clause_printable by apply attribute_error_printable; reflexivity).
Qed.

(** X6. A document that contains a surrogate code point is never sent:
    [.encode('utf-8')] raises at the first one, [str(e)] names its
    position, the answer is 500 and the outbox is left as it was. *)
Theorem surrogate_document_answers_500 (E : env) (d : gmap pystr json) (w : world)
    (e p o : json) (hs : pystr) :
  well_formed d e p o hs ->
  Exists (fun c => is_surrogate c = true) hs ->
  exists pre (c : N) post,
    hs = pre ++ c :: post /\
    Forall (fun x => is_surrogate x = false) pre /\
    is_surrogate c = true /\
    send_report E (Returned (JObj d)) w =
    (let ex := unicode_encode_error (length pre) (surrogate_run (c :: post)) c in
     (Returned (failure_response ex),
      World (S (ticks w)) (stdout w ++ [error_line ex]) (outbox w))).
Proof.
  intros (He & Hp & Ho & Hh & Te & Tp & To & Hne) Hex.
  destruct (first_surrogate hs Hex) as (pre & c & post & -> & Hpre & Hc).
  exists pre, c, post. split; [reflexivity|]. split; [exact Hpre|]. split; [exact Hc|].
  rewrite send_report_run. unfold classify.
  assert (Hall : Forall (present_truthy d) required_fields).
  { unfold required_fields. repeat constructor; eexists; split; try eassumption.
    destruct pre; reflexivity. }
  apply find_none_truthy in Hall. rewrite Hall, Hh. cbn [default from_option id].
  unfold utf8_encode. rewrite (utf8_encode_from_surrogate pre post c Hpre Hc 0).
  cbv zeta. cbn [Nat.add].
  rewrite except_clause_printable by apply unicode_encode_error_printable.
  reflexivity.
Qed.

(** X7. [str.encode('utf-8')] returns exactly for the strings without a
    surrogate, and then the result is the bytes of the characters, one
    after the other. *)
Theorem utf8_encode_succeeds_iff (s : pystr) :
  ((exists bs, utf8_encode s = Returned bs) <->
   Forall (fun c => is_surrogate c = false) s) /\
  (forall bs, utf8_encode s = Returned bs -> bs = concat (map utf8_encode_char s)).
Proof.
  assert (Hclean : (exists bs, utf8_encode s = Returned bs) ->
                   Forall (fun c => is_surrogate c = false) s).
  { intros (bs & Hbs). apply Forall_forall. intros c Hin.
    destruct (is_surrogate c) eqn:Hc; [|reflexivity].
    assert (Hex : Exists (fun x => is_surrogate x = true) s)
      by (apply Exists_exists; eauto).
    destruct (first_surrogate s Hex) as (pre & c' & post & -> & Hpre & Hc').
    unfold utf8_encode in Hbs.
    rewrite (utf8_encode_from_surrogate pre post c' Hpre Hc' 0) in Hbs. discriminate. }
  split; [split; [exact Hclean|]|].
  - intros Hs. eexists. apply (utf8_encode_from_clean s Hs 0).
  - intros bs Hbs. unfold utf8_encode in Hbs.
    rewrite (utf8_encode_from_clean s (Hclean (ex_intro _ bs Hbs)) 0) in Hbs.
    now inversion Hbs.
Qed.

(** X8. Fields other than the four required ones are ignored: two objects
    that agree on [email], [programName], [organizationName] and
    [htmlContent] get the same answer and leave the same world. *)
Theorem other_fields_ignored (E : env) (d d' : gmap pystr json) (w : world) :
  (forall field, In field required_fields -> d !! field = d' !! field) ->
  send_report E (Returned (JObj d)) w = send_report E (Returned (JObj d')) w.
Proof.
  intros Hsame.
  assert (H1 : d !! py "email" = d' !! py "email") by (apply Hsame; cbn; tauto).
  assert (H2 : d !! py "programName" = d' !! py "programName") by (apply Hsame; cbn; tauto).
  assert (H3 : d !! py "organizationName" = d' !! py "organizationName")
    by (apply Hsame; cbn; tauto).
  assert (H4 : d !! py "htmlContent" = d' !! py "htmlContent") by (apply Hsame; cbn; tauto).
  rewrite !send_report_run. unfold classify, required_fields. cbn [find].
  now rewrite H1, H2, H3, H4.
Qed.

(** X9. The handler keeps no state of its own: when the mail capability
    does not look at the world, the answer to a request depends only on
    the request and on how often the clock has been read, not on what
    was printed or sent before. *)
Theorem send_report_stateless (E : env) (request_json : outcome json) (w1 w2 : world) :
  (forall msg a b, send_email E msg a = send_email E msg b) ->
  ticks w1 = ticks w2 ->
  fst (send_report E request_json w1) = fst (send_report E request_json w2).
Proof.
  intros Hmail Hticks. rewrite !send_report_run.
  assert (Hex : forall ex a b, fst (except_clause ex a) = fst (except_clause ex b)).
  { intros ex a b. rewrite !except_clause_run.
    destruct (utf8_encode (error_line ex)); reflexivity. }
  destruct (classify request_json) as [ex|field|ex|e p o bs];
    try reflexivity; try apply Hex.
  cbv zeta. rewrite Hticks.
  rewrite (Hmail _ (World (S (ticks w2)) (stdout w1) (outbox w1))
             (World (S (ticks w2)) (stdout w2) (outbox w2))).
  destruct (send_email E _ _) as [[v|ex] lines]; [reflexivity|apply Hex].
Qed.

Lemma serve_effects (E : env) (r : http_request) (w : world) :
  exists sent printed,
    outbox (snd (serve E r w)) = outbox w ++ sent /\
    stdout (snd (serve E r w)) = stdout w ++ printed /\
    (length sent <= count_posts [r])%nat /\
    (ticks w <= ticks (snd (serve E r w)) <= ticks w + 2)%nat.
Proof.
  assert (Hex : forall ex w0 sent printed,
            outbox w0 = outbox w ++ sent -> stdout w0 = stdout w ++ printed ->
            (length sent <= 1)%nat -> (ticks w <= ticks w0 <= ticks w + 2)%nat ->
            exists sent' printed',
              outbox (snd (except_clause ex w0)) = outbox w ++ sent' /\
              stdout (snd (except_clause ex w0)) = stdout w ++ printed' /\
              (length sent' <= 1)%nat /\
              (ticks w <= ticks (snd (except_clause ex w0)) <= ticks w + 2)%nat).
  { intros ex w0 sent printed Ho Hp Hl Ht.
    destruct (except_clause_effects ex w0) as (more & -> & -> & ->).
    exists sent, (printed ++ more). rewrite Ho, Hp, app_assoc. now repeat split. }
  destruct r as [|request_json]; cbn [serve].
  - exists [], []. cbn [health_check]. unfold bind, now, ret. cbn [snd outbox stdout ticks].
    rewrite !app_nil_r. repeat split; cbn; lia.
  - change (count_posts [POST_send_report request_json]) with 1%nat.
    rewrite send_report_run.
    destruct (classify request_json) as [ex|field|ex|e p o bs]; cbv zeta.
    + apply (Hex ex w [] []); rewrite ?app_nil_r; cbn; try reflexivity; lia.
    + exists [], []. cbn [snd]. rewrite !app_nil_r. repeat split; cbn; lia.
    + apply (Hex ex _ [] []); cbn [outbox stdout ticks]; rewrite ?app_nil_r;
        cbn; try reflexivity; lia.
    + destruct (send_email E _ _) as [[v|ex] lines].
      * eexists [_], _. cbn [snd outbox stdout ticks]. repeat split; cbn; lia.
      * eapply (Hex ex _ [_] lines); cbn [outbox stdout ticks]; cbn; try reflexivity; lia.
Qed.

(** X10. Serving any sequence of requests gives each of them an outcome
    and only appends: what was in the outbox and on standard output stays,
    at most one message is sent per [POST], and the clock is read at most
    twice per request; this holds also when a handler raises. *)
Theorem serve_all_only_appends (E : env) (rs : list http_request) (w : world) :
  exists sent printed,
    length (fst (serve_all E rs w)) = length rs /\
    outbox (snd (serve_all E rs w)) = outbox w ++ sent /\
    stdout (snd (serve_all E rs w)) = stdout w ++ printed /\
    (length sent <= count_posts rs)%nat /\
    (ticks w <= ticks (snd (serve_all E rs w)) <= ticks w + 2 * length rs)%nat.
Proof.
  revert w. induction rs as [|r rest IH]; intros w.
  - exists [], []. cbn [serve_all fst snd]. rewrite !app_nil_r. repeat split; cbn; lia.
  - destruct (serve_effects E r w) as (s1 & p1 & Ho1 & Hp1 & Hl1 & Ht1).
    cbn [serve_all]. destruct (serve E r w) as [x w1]. cbn [snd] in *.
    destruct (IH w1) as (s2 & p2 & Hlen & Ho2 & Hp2 & Hl2 & Ht2).
    destruct (serve_all E rest w1) as [xs w2]. cbn [fst snd] in *.
    exists (s1 ++ s2), (p1 ++ p2).
    split; [cbn [length]; now rewrite Hlen|].
    split; [now rewrite Ho2, Ho1, app_assoc|].
    split; [now rewrite Hp2, Hp1, app_assoc|].
    split.
    + rewrite length_app. unfold count_posts in *. cbn [List.filter] in *.
      destruct r; cbn [length] in *; lia.
    + cbn [length]. lia.
Qed.

Lemma spec_timestamp_printable (t : datetime) : printable (spec_timestamp t).
Proof.
  unfold spec_timestamp, month_name, dec, am_pm.
  destruct (hour t <? 12);
    repeat first [apply py_printable | apply zfill_printable | apply printable_app].
Qed.

Lemma email_body_printable (p o ts : pystr) :
  printable p -> printable o -> printable ts -> printable (email_body p o ts).
Proof.
  intros Hp Ho Hts. unfold email_body, nl.
  repeat apply printable_app;
    first [assumption | apply py_printable | apply small_printable; now repeat constructor].
Qed.

(** X11. On the fallback [send_email] every well-formed request whose
    document has a UTF-8 encoding and whose [email], [programName] and
    [organizationName] can be printed is answered 200: the fallback
    returns [True] after printing the recipient, the subject, the text and
    ["Attachments: 1 files"], and nothing else is printed. *)
Theorem fallback_mailer_reports_success (E : env) (d : gmap pystr json) (w : world)
    (e p o : json) (hs : pystr) (bs : pybytes) :
  send_email E = mock_send_email ->
  well_formed d e p o hs -> utf8_encode hs = Returned bs ->
  printable (format_value e) -> printable (format_value p) ->
  printable (format_value o) ->
  let msg := report_message e p o (clock E (ticks w)) bs in
  send_report E (Returned (JObj d)) w =
  (Returned (success_response e (clock E (S (ticks w)))),
   World (S (S (ticks w)))
     (stdout w ++ [py "MOCK EMAIL - Would send to: " ++ format_value e;
                   py "Subject: " ++ subject msg;
                   py "Text: " ++ text msg;
                   py "Attachments: 1 files"])
     (outbox w ++ [msg])).
Proof.
  intros Hmock Hwf Hbs He Hp Ho msg.
  rewrite send_report_run, (classify_accepted_intro d e p o hs bs Hwf Hbs).
  cbv zeta. rewrite Hmock. unfold mock_send_email.
  cbn [report_message to subject text attachments app length].
  rewrite print_lines_printable; [reflexivity|].
  apply List.Forall_cons.
  { apply printable_app; [apply py_printable|exact He]. }
  apply List.Forall_cons.
  { unfold make_subject. repeat apply printable_app; first [assumption|apply py_printable]. }
  apply List.Forall_cons.
  { apply printable_app; [apply py_printable|].
    apply email_body_printable; try assumption.
    rewrite strftime_report_format.
    apply printable_app; [apply spec_timestamp_printable|apply py_printable]. }
  apply List.Forall_cons; [|apply List.Forall_nil].
  apply printable_app; [apply py_printable|].
  apply printable_app; apply py_printable.
Qed.

(** X12. The message handed to the mail capability carries the submitted
    [email] value as it is (no check of its syntax, no conversion), the
    subject ["Evaluation Plan for {programName} - {organizationName}"],
    and one attachment declared as [text/html] in [base64]. *)
Theorem message_envelope (E : env) (d : gmap pystr json) (w : world)
    (e p o : json) (hs : pystr) (bs : pybytes) :
  well_formed d e p o hs -> utf8_encode hs = Returned bs ->
  exists msg a,
    outbox (snd (send_report E (Returned (JObj d)) w)) = outbox w ++ [msg] /\
    to msg = e /\
    subject msg = py "Evaluation Plan for " ++ format_value p ++ py " - " ++ format_value o /\
    attachments msg = [a] /\
    contentType a = py "text/html" /\ encoding a = py "base64".
Proof.
  intros Hwf Hbs.
  rewrite send_report_outbox, (accepted_report_intro d e p o hs bs Hwf Hbs).
  eexists _, _. split; [reflexivity|]. repeat split.
Qed.

(** X13. The attachment name is the sanitized organization name, [_], the
    sanitized program name and [_Evaluation_Plan.html]: the fixed parts
    pass the filter unchanged, so the name always ends in
    [_Evaluation_Plan.html], is never empty, and is never longer than the
    two names and the fixed parts together. *)
Theorem filename_structure (organization_name program_name : pystr) :
  make_filename organization_name program_name =
    sanitize organization_name ++ py "_" ++ sanitize program_name ++
    py "_Evaluation_Plan.html" /\
  (22 <= length (make_filename organization_name program_name)
      <= length organization_name + length program_name + 22)%nat.
Proof.
  assert (Heq : make_filename organization_name program_name =
                sanitize organization_name ++ py "_" ++ sanitize program_name ++
                py "_Evaluation_Plan.html").
  { unfold make_filename, sanitize. cbv zeta. rewrite !List.filter_app. reflexivity. }
  split; [exact Heq|]. rewrite Heq, !length_app.
  pose proof (List.filter_length_le (fun c => isalnum c || in_punctuation c) organization_name).
  pose proof (List.filter_length_le (fun c => isalnum c || in_punctuation c) program_name).
  unfold sanitize. change (length (py "_")) with 1%nat.
  change (length (py "_Evaluation_Plan.html")) with 21%nat.
  unfold codepoint in *. lia.
Qed.

Lemma kept_ascii (c : codepoint) :
  isalnum c || in_punctuation c = true -> c < 128 -> ascii_filename_char c = true.
Proof.
  intros Hkeep Hc. apply allowed_keep in Hkeep. unfold ascii_filename_char.
  destruct Hkeep as [Halnum | [-> | [-> | ->]]]; try reflexivity.
  unfold isalnum in Halnum. apply N.ltb_lt in Hc. rewrite Hc in Halnum.
  now rewrite Halnum.
Qed.

(** X14. Whatever the two names are, an ASCII character of the attachment
    name is a digit, a letter, [.], [_] or [-]; so the name holds none of
    the ASCII characters of [path_special]: [/], [\], [:], the wildcards,
    the space, the quotes, NUL, tab, line feed, carriage return. What
    passes above U+007F is what [str.isalnum] accepts there. *)
Theorem filename_has_no_path_characters (organization_name program_name : pystr) :
  Forall (fun c => 128 <= c \/ ascii_filename_char c = true)
    (make_filename organization_name program_name) /\
  Forall (fun c => ~ In c path_special) (make_filename organization_name program_name).
Proof.
  assert (Hkept : forall c, In c (make_filename organization_name program_name) ->
                            128 <= c \/ ascii_filename_char c = true).
  { intros c Hin. unfold make_filename in Hin. cbv zeta in Hin.
    apply filter_In in Hin as [_ Hkeep].
    destruct (N.lt_ge_cases c 128) as [Hlt | Hge]; [right|now left].
    now apply kept_ascii. }
  split; apply Forall_forall; intros c Hin; apply list_elem_of_In in Hin.
  - now apply Hkept.
  - intros Hspecial. destruct (Hkept c Hin) as [Hge | Hascii].
    + assert (Hall : forallb (fun x => x <? 128) path_special = true)
        by (vm_compute; reflexivity).
      rewrite forallb_forall in Hall. apply Hall, N.ltb_lt in Hspecial. lia.
    + assert (Hall : forallb (fun x => negb (ascii_filename_char x)) path_special = true)
        by (vm_compute; reflexivity).
      rewrite forallb_forall in Hall. apply Hall in Hspecial.
      rewrite Hascii in Hspecial. discriminate.
Qed.

Lemma b64_char_symbol (i : N) : i < 64 -> b64_symbol (b64_char i).
Proof.
  intros Hi. left. unfold b64_char. apply nth_In.
  change (length b64_alphabet) with 64%nat. lia.
Qed.

Lemma b64encode_shape (bs : pybytes) :
  Forall is_byte bs ->
  length (b64encode bs) = (4 * ((length bs + 2) / 3))%nat /\
  Forall b64_symbol (b64encode bs).
Proof.
  induction bs as [|b0|b0 b1|b0 b1 b2 rest IH] using list_triples_ind; intros Hbs.
  - split; [reflexivity|constructor].
  - inversion Hbs as [|? ? H0 _]; subst.
    destruct (sextets_small b0 0 H0 ltac:(reflexivity)) as (S0 & _ & _ & _ & S1 & _).
    split; [reflexivity|].
    cbn [b64encode].
    repeat (apply List.Forall_cons; [first [now apply b64_char_symbol | now right]|]).
    apply List.Forall_nil.
  - inversion Hbs as [|? ? H0 Hr]; subst. inversion Hr as [|? ? H1 _]; subst.
    destruct (sextets_small b0 b1 H0 H1) as (S0 & S1 & _).
    destruct (sextets_small b1 0 H1 ltac:(reflexivity)) as (_ & _ & _ & _ & _ & S2).
    split; [reflexivity|].
    cbn [b64encode].
    repeat (apply List.Forall_cons; [first [now apply b64_char_symbol | now right]|]).
    apply List.Forall_nil.
  - inversion Hbs as [|? ? H0 Hr]; subst. inversion Hr as [|? ? H1 Hr']; subst.
    inversion Hr' as [|? ? H2 Hrest]; subst.
    destruct (sextets_small b0 b1 H0 H1) as (S0 & S1 & _).
    destruct (sextets_small b1 b2 H1 H2) as (_ & _ & S2 & _).
    destruct (sextets_small b2 0 H2 ltac:(reflexivity)) as (_ & _ & _ & S3 & _).
    destruct (IH Hrest) as (Hlen & Hsym).
    split.
    + cbn [b64encode length]. rewrite Hlen.
      replace (S (S (S (length rest))) + 2)%nat with (length rest + 2 + 1 * 3)%nat by lia.
      rewrite Nat.div_add by discriminate. lia.
    + cbn [b64encode].
      repeat (apply List.Forall_cons; [now apply b64_char_symbol|]). exact Hsym.
Qed.

(** X15. The attachment content is plain base64 text: four characters for
    every three bytes of the encoded document, the last group padded, and
    every character one of the 64 of the alphabet or [=]. *)
Theorem attachment_content_is_base64_text (E : env) (d : gmap pystr json) (w : world)
    (e p o : json) (hs : pystr) (bs : pybytes) :
  well_formed d e p o hs -> utf8_encode hs = Returned bs ->
  exists msg a,
    outbox (snd (send_report E (Returned (JObj d)) w)) = outbox w ++ [msg] /\
    attachments msg = [a] /\
    length (content a) = (4 * ((length bs + 2) / 3))%nat /\
    Forall b64_symbol (content a).
Proof.
  intros Hwf Hbs.
  rewrite send_report_outbox, (accepted_report_intro d e p o hs bs Hwf Hbs).
  eexists _, _. split; [reflexivity|]. split; [reflexivity|].
  cbn [content]. apply b64encode_shape, (utf8_encode_bytes hs), Hbs.
Qed.

(** X16. A successful run reads the clock twice: the time in the text of
    the message is the first reading, the [timestamp] of the response is
    the second, in ISO form. *)
Theorem success_reads_clock_twice (E : env) (request_json : outcome json)
    (w w' : world) (resp : response) :
  send_report E request_json w = (Returned resp, w') ->
  status resp = 200 ->
  ticks w' = S (S (ticks w)) /\
  exists e p o msg,
    resp = success_response e (clock E (S (ticks w))) /\
    outbox w' = outbox w ++ [msg] /\
    text msg =
    email_body (format_value p) (format_value o)
      (strftime (clock E (ticks w)) "%B %d, %Y at %I:%M %p %Z").
Proof.
  intros Hrun Hstatus. rewrite send_report_run in Hrun.
  assert (Hfail : forall ex w0, except_clause ex w0 = (Returned resp, w') -> False).
  { intros ex w0 H. apply except_clause_returned in H as [-> _]. discriminate. }
  destruct (classify request_json) as [ex|field|ex|e p o bs]; cbv zeta in Hrun;
    try (now elim (Hfail _ _ Hrun)); try (inversion Hrun; subst; discriminate).
  destruct (send_email E _ _) as [[v|ex] lines]; [|now elim (Hfail _ _ Hrun)].
  inversion Hrun; subst.
  split; [reflexivity|]. exists e, p, o. eexists. repeat split.
Qed.

Lemma sanitize_allowed (s : pystr) : sanitize s = s <-> Forall allowed_in_filename s.
Proof.
  split.
  - intros <-. apply filter_allowed.
  - induction 1 as [|c s Hc _ IH]; [reflexivity|].
    unfold sanitize in *. cbn [List.filter]. apply allowed_keep in Hc. now rewrite Hc, IH.
Qed.

(** X17. Sanitizing is idempotent: the strings it leaves unchanged are
    those made of allowed characters only, and every attachment name is
    one of them. *)
Theorem sanitize_fixed_points (s : pystr) :
  sanitize (sanitize s) = sanitize s /\
  (sanitize s = s <-> Forall allowed_in_filename s) /\
  (forall organization_name program_name,
     sanitize (make_filename organization_name program_name) =
     make_filename organization_name program_name).
Proof.
  split; [apply sanitize_allowed, filter_allowed|].
  split; [apply sanitize_allowed|].
  intros organization_name program_name. apply sanitize_allowed.
  unfold make_filename. cbv zeta. apply filter_allowed.
Qed.

Lemma utf8_encode_from_ascii (s : pystr) :
  Forall (fun c => c < 128) s -> forall pos, utf8_encode_from pos s = Returned s.
Proof.
  induction 1 as [|c s Hc _ IH]; intros pos; cbn [utf8_encode_from]; [reflexivity|].
  assert (Hsur : is_surrogate c = false).
  { unfold is_surrogate. apply andb_false_iff. left. apply N.leb_gt. lia. }
  rewrite Hsur, IH. unfold utf8_encode_char.
  apply N.ltb_lt in Hc. change 0x80 with 128. now rewrite Hc.
Qed.

(** X18. A document of ASCII characters only is encoded byte for byte:
    its UTF-8 bytes are its code points. *)
Theorem ascii_document_encoded_unchanged (hs : pystr) :
  Forall (fun c => c < 128) hs -> utf8_encode hs = Returned hs.
Proof. intros Hs. apply (utf8_encode_from_ascii hs Hs 0). Qed.

(** X19. The attachment content determines the document: two strings
    whose UTF-8 bytes have the same base64 text are the same string. *)
Theorem document_determined_by_content (hs1 hs2 : pystr) (bs1 bs2 : pybytes) :
  Forall (fun c => is_codepoint c = true) hs1 ->
  Forall (fun c => is_codepoint c = true) hs2 ->
  utf8_encode hs1 = Returned bs1 -> utf8_encode hs2 = Returned bs2 ->
  b64encode bs1 = b64encode bs2 ->
  hs1 = hs2.
Proof.
  intros Hc1 Hc2 H1 H2 Hsame.
  assert (Hbs : Some bs1 = Some bs2).
  { rewrite <- (b64decode_encode bs1 (utf8_encode_bytes hs1 bs1 H1)).
    rewrite <- (b64decode_encode bs2 (utf8_encode_bytes hs2 bs2 H2)).
    now rewrite Hsame. }
  inversion Hbs; subst bs2.
  assert (Hhs : Some hs1 = Some hs2).
  { rewrite <- (utf8_decode_encode hs1 bs1 Hc1 H1).
    now rewrite <- (utf8_decode_encode hs2 bs1 Hc2 H2). }
  now inversion Hhs.
Qed.
End Handlers.

(** ** The properties on the sample inputs *)

Lemma sample_request_well_formed :
  well_formed sample_request (JStr (py "user@example.org")) (JStr (py "Youth/2024"))
    (JStr (py "Acme Corp!")) sample_html.
Proof. repeat split; try (vm_compute; reflexivity). discriminate. Qed.

Lemma sample_html_bytes : utf8_encode sample_html = Returned sample_bytes.
Proof. vm_compute. reflexivity. Qed.

(** C1, counterexample. All four fields are non-empty strings and the mail
    capability returns for every message, yet the answer is 500 and no
    message is sent: the document is the lone surrogate U+D800, which has
    no UTF-8 encoding. *)
Lemma lone_surrogate_document_answers_500 :
  well_formed surrogate_request (JStr (py "user@example.org")) (JStr (py "Youth/2024"))
    (JStr (py "Acme Corp!")) [0xD800] /\
  (forall msg w, send_email accepting_env msg w = (Returned JNull, [])) /\
  send_report sample_str_of_value sample_isalnum accepting_env
    (Returned (JObj surrogate_request)) world0 =
  (Returned
     (Response
        (py_dict
           [(py "error",
             JStr (py "Failed to send email: 'utf-8' codec can't encode character '\ud800' in position 0: surrogates not allowed"))])
        500),
   World 1
     [py "Error sending email: 'utf-8' codec can't encode character '\ud800' in position 0: surrogates not allowed"]
     []).
Proof.
  split; [|split].
  - repeat split; try (vm_compute; reflexivity). discriminate.
  - intros msg w. reflexivity.
  - vm_compute. reflexivity.
Qed.

(** C1, witness: the sample request on the service with the fallback
    mail function. *)
Lemma send_report_delivers_roundtrip_sample :
  well_formed sample_request (JStr (py "user@example.org")) (JStr (py "Youth/2024"))
    (JStr (py "Acme Corp!")) sample_html /\
  utf8_encode sample_html = Returned sample_bytes /\
  exists resp w' msg a,
    send_report sample_str_of_value sample_isalnum (sample_env sample_str_of_value)
      (Returned (JObj sample_request)) world0 = (Returned resp, w') /\
    status resp = 200 /\
    outbox w' = outbox world0 ++ [msg] /\
    msg = report_message sample_str_of_value sample_isalnum
            (JStr (py "user@example.org")) (JStr (py "Youth/2024"))
            (JStr (py "Acme Corp!")) (sample_clock 0) sample_bytes /\
    attachments msg = [a] /\
    b64decode (content a) = Some sample_bytes /\
    (Forall (fun c => is_codepoint c = true) sample_html ->
     utf8_decode sample_bytes = Some sample_html).
Proof.
  split; [exact sample_request_well_formed|]. split; [exact sample_html_bytes|].
  eapply (send_report_delivers_roundtrip sample_str_of_value sample_isalnum
            (sample_env sample_str_of_value) sample_request world0).
  - exact sample_request_well_formed.
  - exact sample_html_bytes.
  - reflexivity.
Defined.

(** C2, witness: [programName] is the empty string, [htmlContent] is
    absent; the first of the two is reported. *)
Lemma missing_field_rejected_400_sample :
  Exists (missing_or_falsy incomplete_request) required_fields /\
  exists pre field post,
    required_fields = pre ++ field :: post /\
    Forall (present_truthy incomplete_request) pre /\
    missing_or_falsy incomplete_request field /\
    send_report sample_str_of_value sample_isalnum (sample_env sample_str_of_value)
      (Returned (JObj incomplete_request)) world0 =
    (Returned
       (Response (py_dict [(py "error", JStr (py "Missing required field: " ++ field))]) 400),
     world0).
Proof.
  assert (H : Exists (missing_or_falsy incomplete_request) required_fields).
  { apply Exists_cons_tl, Exists_cons_hd. right. exists (JStr []).
    split; vm_compute; reflexivity. }
  split; [exact H|].
  exact (missing_field_rejected_400 sample_str_of_value sample_isalnum
           (sample_env sample_str_of_value) incomplete_request world0 H).
Defined.

(** C3, witness: the same request; the world is unchanged. *)
Lemma missing_field_never_sends_sample :
  Exists (missing_or_falsy incomplete_request) required_fields /\
  exists resp,
    send_report sample_str_of_value sample_isalnum (sample_env sample_str_of_value)
      (Returned (JObj incomplete_request)) world0 = (Returned resp, world0) /\
    status resp = 400 /\
    outbox (snd (send_report sample_str_of_value sample_isalnum
                   (sample_env sample_str_of_value)
                   (Returned (JObj incomplete_request)) world0)) = outbox world0 /\
    forall E', send_report sample_str_of_value sample_isalnum E'
                 (Returned (JObj incomplete_request)) world0 = (Returned resp, world0).
Proof.
  assert (H : Exists (missing_or_falsy incomplete_request) required_fields).
  { apply Exists_cons_tl, Exists_cons_hd. right. exists (JStr []).
    split; vm_compute; reflexivity. }
  split; [exact H|].
  exact (missing_field_never_sends sample_str_of_value sample_isalnum
           (sample_env sample_str_of_value) incomplete_request world0 H).
Defined.

(** C4. The handler does not answer every exception of the mail
    capability with the 500 body: on the sample request, when the
    capability raises an exception whose text is the lone surrogate U+D800,
    the [print] of the [except] clause raises [UnicodeEncodeError] (the
    character is at position 21 of the line), nothing is printed, no
    response is built and the exception leaves [send_report]; the message
    had been handed over. *)
Theorem mailer_unprintable_exception_escapes :
  send_email unprintable_failing_env
    (sample_message sample_str_of_value sample_isalnum) (World 1 [] []) =
    (Raised (Exn "Exception" [0xD800]), []) /\
  send_report sample_str_of_value sample_isalnum unprintable_failing_env
    (Returned (JObj sample_request)) world0 =
  (Raised
     (Exn "UnicodeEncodeError"
        (py "'utf-8' codec can't encode character '\ud800' in position 21: surrogates not allowed")),
   World 1 [] [sample_message sample_str_of_value sample_isalnum]).
Proof. split; vm_compute; reflexivity. Qed.

(** X20, witness: the sample request on a mail capability that raises
    ["SMTP timeout"]. *)
Lemma mailer_exception_gives_500_sample :
  exists resp w',
    send_report sample_str_of_value sample_isalnum failing_env
      (Returned (JObj sample_request)) world0 = (Returned resp, w') /\
    resp = Response
             (py_dict [(py "error", JStr (py "Failed to send email: SMTP timeout"))]) 500 /\
    outbox w' = [report_message sample_str_of_value sample_isalnum
                   (JStr (py "user@example.org")) (JStr (py "Youth/2024"))
                   (JStr (py "Acme Corp!")) (sample_clock 0) sample_bytes] /\
    stdout w' = [py "Error sending email: SMTP timeout"].
Proof.
  destruct (mailer_exception_gives_500 sample_str_of_value sample_isalnum failing_env
              sample_request world0 _ _ _ _ _ (Exn "Exception" (py "SMTP timeout")) []
              sample_request_well_formed sample_html_bytes eq_refl
              (py_printable "SMTP timeout"))
    as (resp & w' & Hrun & _ & Hout & Hlog & Hsmtp).
  exists resp, w'. split; [exact Hrun|]. split; [exact (Hsmtp eq_refl)|].
  split; [exact Hout|exact Hlog].
Defined.

(** C5, witness: ["Acme Corp!"] and ["Youth/2024"]. *)
Lemma attachment_filename_sanitized_sample :
  exists msg a,
    outbox (snd (send_report sample_str_of_value sample_isalnum
                   (sample_env sample_str_of_value)
                   (Returned (JObj sample_request)) world0)) = outbox world0 ++ [msg] /\
    attachments msg = [a] /\
    filename a = py "AcmeCorp_Youth2024_Evaluation_Plan.html".
Proof.
  destruct (attachment_filename_sanitized sample_str_of_value sample_isalnum
              (sample_env sample_str_of_value) sample_request world0 _ _ _ _ _
              sample_request_well_formed sample_html_bytes)
    as (msg & a & Hout & Hatt & _ & _ & Hname).
  exists msg, a. split; [exact Hout|]. split; [exact Hatt|exact (Hname eq_refl eq_refl)].
Defined.

(** C6. The text sent is not the template filled with the time stamp
    [Month Day, Year at HH:MM AM/PM]: at 15:05 on 12 October 2026 that
    time stamp is ["October 12, 2026 at 03:05 PM"], but the format of the
    handler ends in [" %Z"], which on the naive local time leaves a blank,
    so the text sent has a space after [PM], before the full stop. *)
Lemma report_timestamp_has_trailing_space :
  spec_timestamp (sample_clock 0) = py "October 12, 2026 at 03:05 PM" /\
  strftime (sample_clock 0) "%B %d, %Y at %I:%M %p %Z" = py "October 12, 2026 at 03:05 PM " /\
  map text (outbox (snd (send_report sample_str_of_value sample_isalnum
                           (sample_env sample_str_of_value)
                           (Returned (JObj sample_request)) world0))) =
    [email_body (py "Youth/2024") (py "Acme Corp!") (py "October 12, 2026 at 03:05 PM ")] /\
  email_body (py "Youth/2024") (py "Acme Corp!") (py "October 12, 2026 at 03:05 PM ") <>
  email_body (py "Youth/2024") (py "Acme Corp!") (spec_timestamp (sample_clock 0)).
Proof.
  split; [vm_compute; reflexivity|]. split; [vm_compute; reflexivity|].
  split; [vm_compute; reflexivity|].
  intros H. apply (f_equal (@length N)) in H. vm_compute in H. discriminate H.
Qed.

(** X21, witness. *)
Lemma email_body_timestamp_format_sample :
  exists msg,
    outbox (snd (send_report sample_str_of_value sample_isalnum
                   (sample_env sample_str_of_value)
                   (Returned (JObj sample_request)) world0)) = outbox world0 ++ [msg] /\
    text msg =
    email_body (py "Youth/2024") (py "Acme Corp!")
      (spec_timestamp (sample_clock 0) ++ py " ").
Proof.
  exact (email_body_timestamp_format sample_str_of_value sample_isalnum
           (sample_env sample_str_of_value) sample_request world0 _ _ _ _ _
           sample_request_well_formed sample_html_bytes).
Defined.

(** C8, witness: the service with the fallback mail function and the one
    whose mail capability raises, started in different worlds at the same
    time, hand over the same message. *)
Lemma email_message_deterministic_sample :
  exists sent,
    outbox (snd (send_report sample_str_of_value sample_isalnum
                   (sample_env sample_str_of_value)
                   (Returned (JObj sample_request)) world0)) = outbox world0 ++ sent /\
    outbox (snd (send_report sample_str_of_value sample_isalnum failing_env
                   (Returned (JObj sample_request)) (World 0 [py "started"] []))) =
      outbox (World 0 [py "started"] []) ++ sent /\
    sent = [report_message sample_str_of_value sample_isalnum
              (JStr (py "user@example.org")) (JStr (py "Youth/2024"))
              (JStr (py "Acme Corp!")) (sample_clock 0) sample_bytes].
Proof.
  exact (email_message_deterministic sample_str_of_value sample_isalnum
           (sample_env sample_str_of_value) failing_env
           (Returned (JObj sample_request)) world0 (World 0 [py "started"] []) eq_refl).
Defined.

(** C9, witness: a body that is a JSON array. *)
Lemma unreadable_body_gives_500_sample :
  send_report sample_str_of_value sample_isalnum (sample_env sample_str_of_value)
    (Returned (JArr [])) world0 =
  (Returned
     (Response
        (py_dict [(py "error",
                   JStr (py "Failed to send email: 'list' object has no attribute 'get'"))])
        500),
   World 0 [py "Error sending email: 'list' object has no attribute 'get'"] []).
Proof.
  apply (unreadable_body_gives_500 sample_str_of_value sample_isalnum
           (sample_env sample_str_of_value) (Returned (JArr [])) world0 eq_refl).
  intros ex H. discriminate H.
Defined.

(** A body that [get_json] refuses: the text of the framework's exception
    is printed and returned. *)
Example rejected_body_answers_500 :
  send_report sample_str_of_value sample_isalnum (sample_env sample_str_of_value)
    (Raised (Exn "BadRequest" (py "400 Bad Request: Failed to decode JSON object")))
    world0 =
  (Returned
     (Response
        (py_dict
           [(py "error",
             JStr (py "Failed to send email: 400 Bad Request: Failed to decode JSON object"))])
        500),
   World 0 [py "Error sending email: 400 Bad Request: Failed to decode JSON object"] []).
Proof. vm_compute. reflexivity. Qed.

(** C10, witness. *)
Lemma success_message_echoes_email_sample :
  exists d e fields,
    Returned (JObj sample_request) = Returned (JObj d) /\
    d !! py "email" = Some e /\
    body (Response
            (py_dict [(py "success", JBool true);
                      (py "message", JStr (py "Email sent successfully to user@example.org"));
                      (py "timestamp", JStr (py "2026-10-12T15:05:01"))]) 200) = JObj fields /\
    fields !! py "message" =
      Some (JStr (py "Email sent successfully to " ++ format_value sample_str_of_value e)) /\
    forall s, e = JStr s ->
      fields !! py "message" = Some (JStr (py "Email sent successfully to " ++ s)).
Proof.
  eapply (success_message_echoes_email sample_str_of_value sample_isalnum
            (sample_env sample_str_of_value) (Returned (JObj sample_request)) world0).
  - vm_compute. reflexivity.
  - reflexivity.
Defined.

(** ** The further properties on the sample inputs *)

Lemma surrogate_request_well_formed :
  well_formed surrogate_request (JStr (py "user@example.org")) (JStr (py "Youth/2024"))
    (JStr (py "Acme Corp!")) [0xD800].
Proof. repeat split; try (vm_compute; reflexivity). discriminate. Qed.

(** X4, witness: the sample request on the mail capability that raises. *)
Lemma status_500_causes_sample :
  exists ex,
    failure_response (Exn "Exception" (py "SMTP timeout")) = failure_response ex /\
    last (stdout (snd (send_report sample_str_of_value sample_isalnum failing_env
                         (Returned (JObj sample_request)) world0))) =
      Some (error_line ex).
Proof.
  destruct (status_500_causes sample_str_of_value sample_isalnum failing_env
              (Returned (JObj sample_request)) world0
              (snd (send_report sample_str_of_value sample_isalnum failing_env
                      (Returned (JObj sample_request)) world0))
              (failure_response (Exn "Exception" (py "SMTP timeout")))
              ltac:(vm_compute; reflexivity) eq_refl)
    as (ex & Hresp & Hlast & _).
  exists ex. split; [exact Hresp|exact Hlast].
Defined.

(** X5, witness: the document is the number 5. *)
Lemma non_string_document_answers_500_sample :
  send_report sample_str_of_value sample_isalnum (sample_env sample_str_of_value)
    (Returned (JObj numeric_document_request)) world0 =
  (Returned
     (Response
        (py_dict [(py "error",
                   JStr (py "Failed to send email: '" ++ py (type_name (JInt 5)) ++
                         py "' object has no attribute 'encode'"))])
        500),
   World (S (ticks world0))
     (stdout world0 ++ [py "Error sending email: '" ++ py (type_name (JInt 5)) ++
                        py "' object has no attribute 'encode'"])
     (outbox world0)).
Proof.
  apply (non_string_document_answers_500 sample_str_of_value sample_isalnum
           (sample_env sample_str_of_value) numeric_document_request world0 (JInt 5)).
  - repeat (apply List.Forall_cons; [eexists; split; vm_compute; reflexivity|]).
    apply List.Forall_nil.
  - vm_compute. reflexivity.
  - intros hs. discriminate.
Defined.

(** X6, witness: the document is the lone surrogate U+D800. *)
Lemma surrogate_document_answers_500_sample :
  exists pre (c : N) post,
    [0xD800] = pre ++ c :: post /\
    Forall (fun x => is_surrogate x = false) pre /\
    is_surrogate c = true /\
    send_report sample_str_of_value sample_isalnum (sample_env sample_str_of_value)
      (Returned (JObj surrogate_request)) world0 =
    (let ex := unicode_encode_error (length pre) (surrogate_run (c :: post)) c in
     (Returned (failure_response ex),
      World (S (ticks world0)) (stdout world0 ++ [error_line ex]) (outbox world0))).
Proof.
  apply (surrogate_document_answers_500 sample_str_of_value sample_isalnum
           (sample_env sample_str_of_value) surrogate_request world0
           (JStr (py "user@example.org")) (JStr (py "Youth/2024"))
           (JStr (py "Acme Corp!")) [0xD800]).
  - exact surrogate_request_well_formed.
  - apply List.Exists_cons_hd. reflexivity.
Defined.

(** X8, witness: the sample request with and without two more fields. *)
Lemma other_fields_ignored_sample :
  send_report sample_str_of_value sample_isalnum (sample_env sample_str_of_value)
    (Returned (JObj annotated_request)) world0 =
  send_report sample_str_of_value sample_isalnum (sample_env sample_str_of_value)
    (Returned (JObj sample_request)) world0.
Proof.
  apply (other_fields_ignored sample_str_of_value sample_isalnum
           (sample_env sample_str_of_value) annotated_request sample_request world0).
  intros field [<- | [<- | [<- | [<- | []]]]]; vm_compute; reflexivity.
Defined.

(** X9, witness: the fallback does not look at the world; a fresh world and
    one with earlier output and mail give the same answer. *)
Lemma send_report_stateless_sample :
  fst (send_report sample_str_of_value sample_isalnum (sample_env sample_str_of_value)
         (Returned (JObj sample_request)) world0) =
  fst (send_report sample_str_of_value sample_isalnum (sample_env sample_str_of_value)
         (Returned (JObj sample_request))
         (World 0 [py "started"] [sample_message sample_str_of_value sample_isalnum])).
Proof.
  apply (send_report_stateless sample_str_of_value sample_isalnum
           (sample_env sample_str_of_value)).
  - intros msg a b. reflexivity.
  - reflexivity.
Defined.

(** X11, witness: the sample request on the service without [replitmail]. *)
Lemma fallback_mailer_reports_success_sample :
  let msg := sample_message sample_str_of_value sample_isalnum in
  send_report sample_str_of_value sample_isalnum (sample_env sample_str_of_value)
    (Returned (JObj sample_request)) world0 =
  (Returned (success_response sample_str_of_value (JStr (py "user@example.org"))
               (sample_clock 1)),
   World 2
     [py "MOCK EMAIL - Would send to: user@example.org";
      py "Subject: " ++ subject msg;
      py "Text: " ++ text msg;
      py "Attachments: 1 files"]
     [msg]).
Proof.
  exact (fallback_mailer_reports_success sample_str_of_value sample_isalnum
           (sample_env sample_str_of_value) sample_request world0 _ _ _ _ _
           eq_refl sample_request_well_formed sample_html_bytes
           (py_printable "user@example.org") (py_printable "Youth/2024")
           (py_printable "Acme Corp!")).
Defined.

(** When [programName] is the lone surrogate U+D800 the fallback prints the
    recipient and then fails to print the subject: its
    [UnicodeEncodeError] is caught, printed and answered with 500. *)
Example fallback_mailer_unprintable_subject :
  send_report sample_str_of_value sample_isalnum (sample_env sample_str_of_value)
    (Returned (JObj surrogate_program_request)) world0 =
  (Returned
     (Response
        (py_dict
           [(py "error",
             JStr (py "Failed to send email: 'utf-8' codec can't encode character '\ud800' in position 29: surrogates not allowed"))])
        500),
   World 1
     [py "MOCK EMAIL - Would send to: user@example.org";
      py "Error sending email: 'utf-8' codec can't encode character '\ud800' in position 29: surrogates not allowed"]
     [report_message sample_str_of_value sample_isalnum
        (JStr (py "user@example.org")) (JStr [0xD800]) (JStr (py "Acme Corp!"))
        (sample_clock 0) sample_bytes]).
Proof. vm_compute. reflexivity. Qed.

(** X12, witness. *)
Lemma message_envelope_sample :
  exists msg a,
    outbox (snd (send_report sample_str_of_value sample_isalnum
                   (sample_env sample_str_of_value)
                   (Returned (JObj sample_request)) world0)) = outbox world0 ++ [msg] /\
    to msg = JStr (py "user@example.org") /\
    subject msg = py "Evaluation Plan for " ++ py "Youth/2024" ++ py " - " ++ py "Acme Corp!" /\
    attachments msg = [a] /\
    contentType a = py "text/html" /\ encoding a = py "base64".
Proof.
  exact (message_envelope sample_str_of_value sample_isalnum
           (sample_env sample_str_of_value) sample_request world0 _ _ _ _ _
           sample_request_well_formed sample_html_bytes).
Defined.

(** X15, witness: the twelve bytes of the sample document give sixteen
    characters. *)
Lemma attachment_content_is_base64_text_sample :
  exists msg a,
    outbox (snd (send_report sample_str_of_value sample_isalnum
                   (sample_env sample_str_of_value)
                   (Returned (JObj sample_request)) world0)) = outbox world0 ++ [msg] /\
    attachments msg = [a] /\
    length (content a) = (4 * ((length sample_bytes + 2) / 3))%nat /\
    Forall b64_symbol (content a).
Proof.
  exact (attachment_content_is_base64_text sample_str_of_value sample_isalnum
           (sample_env sample_str_of_value) sample_request world0 _ _ _ _ _
           sample_request_well_formed sample_html_bytes).
Defined.

(** X16, witness: the message carries 15:05 of the first reading, the
    response the second reading. *)
Lemma success_reads_clock_twice_sample :
  ticks (snd (send_report sample_str_of_value sample_isalnum
                (sample_env sample_str_of_value)
                (Returned (JObj sample_request)) world0)) = S (S (ticks world0)) /\
  exists e p o msg,
    success_response sample_str_of_value (JStr (py "user@example.org")) (sample_clock 1) =
      success_response sample_str_of_value e (sample_clock (S (ticks world0))) /\
    outbox (snd (send_report sample_str_of_value sample_isalnum
                   (sample_env sample_str_of_value)
                   (Returned (JObj sample_request)) world0)) = outbox world0 ++ [msg] /\
    text msg =
    email_body (format_value sample_str_of_value p) (format_value sample_str_of_value o)
      (strftime (sample_clock (ticks world0)) "%B %d, %Y at %I:%M %p %Z").
Proof.
  apply (success_reads_clock_twice sample_str_of_value sample_isalnum
           (sample_env sample_str_of_value) (Returned (JObj sample_request)) world0).
  - vm_compute. reflexivity.
  - reflexivity.
Defined.

(** X18, witness. *)
Lemma ascii_document_encoded_unchanged_sample :
  utf8_encode (py "<p>ok</p>") = Returned (py "<p>ok</p>").
Proof.
  apply ascii_document_encoded_unchanged.
  apply Forall_forall. intros c Hin. apply list_elem_of_In in Hin.
  assert (Hall : forallb (fun x => x <? 128) (py "<p>ok</p>") = true)
    by (vm_compute; reflexivity).
  rewrite forallb_forall in Hall. apply N.ltb_lt, Hall, Hin.
Defined.

(** X19, witness: U+00E9 written as one character, and the string that
    has the same bytes. *)
Lemma document_determined_by_content_sample :
  sample_html = py "<p>caf" ++ [0xE9] ++ py "</p>".
Proof.
  apply (document_determined_by_content sample_isalnum sample_html
           (py "<p>caf" ++ [0xE9] ++ py "</p>")
           sample_bytes sample_bytes).
  - apply Forall_forall. intros c Hin. apply list_elem_of_In in Hin.
    assert (Hall : forallb is_codepoint sample_html = true) by (vm_compute; reflexivity).
    rewrite forallb_forall in Hall. apply Hall, Hin.
  - apply Forall_forall. intros c Hin. apply list_elem_of_In in Hin.
    assert (Hall : forallb is_codepoint (py "<p>caf" ++ [0xE9] ++ py "</p>") = true)
      by (vm_compute; reflexivity).
    rewrite forallb_forall in Hall. apply Hall, Hin.
  - exact sample_html_bytes.
  - vm_compute. reflexivity.
  - reflexivity.
Defined.
